(** * GPM IMERG rainfall extraction for the Panchganga basin

    A shallow embedding of [gee_panchganga_rainfall_extraction.js] and the
    properties of its daily dataset and of its daily and monthly
    extractions.

    The script is an Earth Engine client program.  Module [EE] gives the
    platform primitives the script calls (dates, list sequences, image
    collections and their reductions) by their documented meaning on the
    values the script hands them; module [Script] is the script itself,
    line by line, with its top-level [var]s gathered in a record. *)

From Stdlib Require Import String Ascii ZArith QArith Bool Lia List Sorted.
Import ListNotations.
Open Scope Z_scope.

(* ================================================================== *)
(** ** Earth Engine primitives                                          *)
(* ================================================================== *)

Module EE.

(** An [ee.Date] is an instant: milliseconds since 1970-01-01T00:00 UTC. *)
Definition Date : Type := Z.

Definition millisPerDay : Z := 86400000.

(** Days since the epoch of the proleptic Gregorian date [y-m-d]. *)
Definition days_from_civil (y m d : Z) : Z :=
  let y' := if m <=? 2 then y - 1 else y in
  let era := y' / 400 in
  let yoe := y' - era * 400 in
  let mp := if m <=? 2 then m + 9 else m - 3 in
  let doy := (153 * mp + 2) / 5 + d - 1 in
  let doe := yoe * 365 + yoe / 4 - yoe / 100 + doy in
  era * 146097 + doe - 719468.

(** The Gregorian date (year, month, day) of a day number. *)
Definition civil_from_days (n : Z) : Z * Z * Z :=
  let z := n + 719468 in
  let era := z / 146097 in
  let doe := z - era * 146097 in
  let yoe := (doe - doe / 1460 + doe / 36524 - doe / 146096) / 365 in
  let doy := doe - (365 * yoe + yoe / 4 - yoe / 100) in
  let mp := (5 * doy + 2) / 153 in
  let d := doy - (153 * mp + 2) / 5 + 1 in
  let m := if mp <? 10 then mp + 3 else mp - 9 in
  let y := yoe + era * 400 in
  (if m <=? 2 then y + 1 else y, m, d).

(** [ee.Date.fromYMD(year, month, day)]: midnight UTC of that date. *)
Definition fromYMD (y m d : Z) : Date := millisPerDay * days_from_civil y m d.

(** A date literal ['YYYY-MM-DD'], kept as its three fields. *)
Record DateLiteral : Type := ymd { lit_year : Z; lit_month : Z; lit_day : Z }.

(** [ee.Date('YYYY-MM-DD')]. *)
Definition Date_of (s : DateLiteral) : Date :=
  fromYMD (lit_year s) (lit_month s) (lit_day s).

Inductive Unit : Type := Day | Month.

Definition days_in_month (y m : Z) : Z :=
  let i := y * 12 + (m - 1) + 1 in
  days_from_civil (i / 12) (i mod 12 + 1) 1 - days_from_civil y m 1.

(** [date.advance(delta, unit)].  Days are fixed-length (UTC); a month step
    keeps the day of month, clamped to the length of the target month, and
    the time of day. *)
Definition advance (delta : Z) (u : Unit) (t : Date) : Date :=
  match u with
  | Day => t + delta * millisPerDay
  | Month =>
      let '(y, m, d) := civil_from_days (t / millisPerDay) in
      let i := y * 12 + (m - 1) + delta in
      let y' := i / 12 in
      let m' := i mod 12 + 1 in
      fromYMD y' m' (Z.min d (days_in_month y' m')) + t mod millisPerDay
  end.

(** [a.difference(b, 'day')].  The platform returns the quotient as a
    floating-point number; between two midnights it is the whole number
    below (see [difference_midnights]). *)
Definition difference (a b : Date) : Z := (a - b) / millisPerDay.

(** [ee.List.sequence(start, end)]: start, start+1, ..., end; empty when
    end < start. *)
Definition sequence (a b : Z) : list Z :=
  map (fun k => a + Z.of_nat k) (seq 0 (Z.to_nat (b - a + 1))).

(** *** Formatting, ['YYYY-MM-dd'] *)

Definition digit (n : Z) : string :=
  String (ascii_of_nat (48 + Z.to_nat (n mod 10))) EmptyString.

Definition pad2 (n : Z) : string := (digit (n / 10) ++ digit n)%string.

Definition pad4 (n : Z) : string := (pad2 (n / 100) ++ pad2 n)%string.

Definition format (t : Date) : string :=
  let '(y, m, d) := civil_from_days (t / millisPerDay) in
  (pad4 y ++ "-" ++ pad2 m ++ "-" ++ pad2 d)%string.

(** *** Geometries and images *)

Inductive Geometry : Type :=
| Point (lon lat : Q)
| Rectangle (xMin yMin xMax yMax : Q).

(** One band of an image: the value of the first pixel under a geometry
    at the scale of the reduction, or [None] where the band is masked
    there. *)
Definition Band : Type := Geometry -> option Q.

(** An image of the IMERG collection: its [system:time_start] and its
    [precipitationCal] band. *)
Record Image : Type := mkImage { time_start : Date; precipitationCal : Band }.

Definition ImageCollection : Type := list Image.

Definition inWindow (s e : Date) (t : Date) : bool := (s <=? t) && (t <? e).

(** [collection.filterDate(start, end)]: start inclusive, end exclusive. *)
Definition filterDate (s e : Date) (c : ImageCollection) : ImageCollection :=
  filter (fun i => inWindow s e (time_start i)) c.

(** [collection.select('precipitationCal')]: the only band modelled. *)
Definition select_precipitationCal (c : ImageCollection) : ImageCollection := c.

(** The sum reducer over pixel values: masked inputs are skipped, and the
    result is masked when there is no unmasked input. *)
Fixpoint add_unmasked (l : list (option Q)) : option Q :=
  match l with
  | [] => None
  | None :: r => add_unmasked r
  | Some x :: r =>
      match add_unmasked r with
      | None => Some x
      | Some s => Some (x + s)%Q
      end
  end.

(** [collection.sum()].  Over images the result has the band, summed pixel
    by pixel; over an empty collection it is an image with no band at all
    ([None]). *)
Definition sum (c : ImageCollection) : option Band :=
  match c with
  | [] => None
  | _ :: _ => Some (fun g => add_unmasked (map (fun i => precipitationCal i g) c))
  end.

(** [image.multiply(k)]: every band the image has, times [k]. *)
Definition multiply (k : Q) (b : option Band) : option Band :=
  option_map (fun band g => option_map (fun v => (v * k)%Q) (band g)) b.

(** What reading a key of a reduction's dictionary gives: a number, null
    for a masked pixel, or the failure of [get] on a key the dictionary
    does not contain. *)
Inductive Reading : Type :=
| Value (v : Q)
| Null
| NoSuchKey.

(** [image.reduceRegion({reducer: first, geometry, scale}).get('precipitationCal')]:
    the dictionary has one key per band of the image. *)
Definition reduceRegion_first (b : option Band) (g : Geometry) : Reading :=
  match b with
  | None => NoSuchKey
  | Some band =>
      match band g with
      | Some v => Value v
      | None => Null
      end
  end.

(** *** Mapping over a list on the client *)

Inductive Thrown : Type := TypeError (message : string).

(** How the callback of [list.map] first uses its parameter.  The client
    calls the callback once, on an [ee.ComputedObject] that stands for
    every element: wrapped in a constructor ([ee.Date(date)]) it gets the
    methods of the element's type; a method of the element's type called
    on it directly is not there, and the call throws. *)
Inductive ParameterUse : Type :=
| wrapped (constructor : string)
| called (method : string).

(** [list.map(f)]. *)
Definition List_map {A B : Type} (use : ParameterUse) (f : A -> B) (l : list A)
  : Thrown + list B :=
  match use with
  | wrapped _ => inr (map f l)
  | called method => inl (TypeError (method ++ " is not a function"))
  end.

(** [ee.FeatureCollection(lists).flatten()]. *)
Definition flatten {A : Type} (r : Thrown + list (list A)) : Thrown + list A :=
  match r with
  | inl e => inl e
  | inr ls => inr (concat ls)
  end.

End EE.

(* ================================================================== *)
(** ** The script                                                       *)
(* ================================================================== *)

Module Script.
Import EE.

(** A JavaScript object with string keys that are not array indices:
    [Object.keys] lists them in insertion order, [o[k]] reads one. *)
Definition Object (A : Type) : Type := list (string * A).

Definition Object_keys {A : Type} (o : Object A) : list string := map fst o.

Fixpoint get {A : Type} (o : Object A) (k : string) : option A :=
  match o with
  | [] => None
  | (k', v) :: r => if String.eqb k' k then Some v else get r k
  end.

(** The top-level [var]s that configure a run. *)
Record Config : Type := mkConfig {
  startDate : DateLiteral;
  endDate : DateLiteral;
  basin : Geometry;
  talukas : Object Geometry
}.

(** [ee.Feature(null, {date, taluka, rainfall_mm})].  The [date] property
    is kept as the instant it formats; [EE.format] renders it. *)
Record DailyFeature : Type := mkDaily {
  date : Date;
  taluka : string;
  rainfall_mm : Reading
}.

(** [ee.Feature(null, {year, month, taluka, rainfall_mm})]. *)
Record MonthlyFeature : Type := mkMonthly {
  year : Z;
  month : Z;
  m_taluka : string;
  m_rainfall_mm : Reading
}.

Inductive Table : Type :=
| DailyTable (rows : list DailyFeature)
| MonthlyTable (rows : list MonthlyFeature).

Definition size (t : Table) : nat :=
  match t with
  | DailyTable rows => length rows
  | MonthlyTable rows => length rows
  end.

Definition limit (n : nat) (t : Table) : Table :=
  match t with
  | DailyTable rows => DailyTable (firstn n rows)
  | MonthlyTable rows => MonthlyTable (firstn n rows)
  end.

(** What the script asks of the Code Editor, in program order. *)
Inductive Effect : Type :=
| Export_table_toDrive (collection : Table) (description fileFormat folder : string)
| print_number (label : string) (n : nat)
| print_table (label : string) (t : Table)
| Map_centerObject (g : Geometry) (zoom : Z)
| Map_addLayer (g : Geometry) (color name : string).

(** How a run ends: rejected before anything is done, run to its last
    line, or stopped by an uncaught exception after some effects.  The
    script has no statement that rejects its configuration. *)
Inductive Outcome : Type :=
| ConfigurationError
| Completed (effects : list Effect)
| Uncaught (effects : list Effect) (error : Thrown).

(** The value read at a taluka point; [undefined] geometry gives null. *)
Definition valueAt (image : option Band) (point : option Geometry) : Reading :=
  match point with
  | Some p => reduceRegion_first image p
  | None => Null
  end.

Section Run.

Variable cfg : Config.
(** The images of ['NASA/GPM_L3/IMERG_V07']. *)
Variable catalog : ImageCollection.

Definition imerg : ImageCollection :=
  select_precipitationCal
    (filterDate (Date_of (startDate cfg)) (Date_of (endDate cfg)) catalog).

(** Line 41, [var start = ee.Date(date)]: the parameter is wrapped. *)
Definition extractDailyRainfall_parameter : ParameterUse := wrapped "ee.Date".

Definition extractDailyRainfall (d : Date) : list DailyFeature :=
  let start := d in
  let end_ := advance 1 Day start in
  let daily :=
    multiply (1 # 2)
      (sum (select_precipitationCal (filterDate start end_ imerg))) in
  fold_left
    (fun features talukaName =>
       let point := get (talukas cfg) talukaName in
       let value := valueAt daily point in
       features ++ [mkDaily start talukaName value])
    (Object_keys (talukas cfg)) [].

Definition days : list Z :=
  sequence 0 (difference (Date_of (endDate cfg)) (Date_of (startDate cfg)) - 1).

Definition dates : list Date :=
  map (fun n => advance n Day (Date_of (startDate cfg))) days.

(** Line 77.  The callback wraps its parameter, so the mapping goes
    through and the lists of features are flattened. *)
Definition rainfallData : list DailyFeature :=
  flat_map extractDailyRainfall dates.

(** Line 102, [ee.Number(yearMonth.get(0))]: [get] is called on the
    parameter itself. *)
Definition extractMonthlyRainfall_parameter : ParameterUse := called "yearMonth.get".

(** The function on a list [[year, month]] that has its methods. *)
Definition extractMonthlyRainfall (yearMonth : Z * Z) : list MonthlyFeature :=
  let y := fst yearMonth in
  let m := snd yearMonth in
  let start := fromYMD y m 1 in
  let end_ := advance 1 Month start in
  let monthly :=
    multiply (1 # 2)
      (sum (select_precipitationCal (filterDate start end_ imerg))) in
  fold_left
    (fun features talukaName =>
       let point := get (talukas cfg) talukaName in
       let value := valueAt monthly point in
       features ++ [mkMonthly y m talukaName value])
    (Object_keys (talukas cfg)) [].

Definition years : list Z := sequence 2006 2025.
Definition months : list Z := sequence 1 12.

Definition yearMonths : list (Z * Z) :=
  flat_map (fun y => map (fun m => (y, m)) months) years.

(** Line 142. *)
Definition monthlyData : Thrown + list MonthlyFeature :=
  flatten (List_map extractMonthlyRainfall_parameter extractMonthlyRainfall yearMonths).

Definition talukaLayers : list Effect :=
  fold_left
    (fun layers talukaName =>
       match get (talukas cfg) talukaName with
       | Some point => layers ++ [Map_addLayer point "red" talukaName]
       | None => layers
       end)
    (Object_keys (talukas cfg)) [].

(** What the script has asked for when it reaches line 142. *)
Definition effects : list Effect :=
  [ Export_table_toDrive (DailyTable rainfallData)
      "Panchganga_Rainfall_Taluka_Wise_2006_2025" "CSV" "Panchganga_Rainfall_Data";
    print_number "Total number of records:" (size (DailyTable rainfallData));
    print_table "Sample data:" (limit 20 (DailyTable rainfallData));
    Map_centerObject (basin cfg) 9;
    Map_addLayer (basin cfg) "blue" "Panchganga Basin" ]
  ++ talukaLayers.

(** Lines 144 to 153, for a monthly collection that was built. *)
Definition monthlyEffects (rows : list MonthlyFeature) : list Effect :=
  [ Export_table_toDrive (MonthlyTable rows)
      "Panchganga_Rainfall_Monthly_Taluka_Wise_2006_2025" "CSV" "Panchganga_Rainfall_Data";
    print_number "Monthly data records:" (size (MonthlyTable rows));
    print_table "Monthly sample:" (limit 20 (MonthlyTable rows)) ].

(** The whole script, top to bottom. *)
Definition run : Outcome :=
  match monthlyData with
  | inl error => Uncaught effects error
  | inr rows => Completed (effects ++ monthlyEffects rows)
  end.

End Run.

(** The effects of a run, however it ended. *)
Definition issued (o : Outcome) : list Effect :=
  match o with
  | ConfigurationError => []
  | Completed effs => effs
  | Uncaught effs _ => effs
  end.

(** The tables a run hands to [Export.table.toDrive]. *)
Definition exports (o : Outcome) : list Table :=
  flat_map (fun e => match e with
                     | Export_table_toDrive t _ _ _ => [t]
                     | _ => []
                     end) (issued o).

(** The configuration written in the script. *)
Definition reference : Config :=
  {| startDate := ymd 2006 1 1;
     endDate := ymd 2025 12 31;
     basin := Rectangle (735 # 10) (159 # 10) (747 # 10) (170 # 10);
     talukas :=
       [ ("Karvir", Point (742433 # 10000) (16705 # 1000));
         ("Panhala", Point (741167 # 10000) (168167 # 10000));
         ("Shahuwadi", Point (744833 # 10000) (166167 # 10000));
         ("Kagal", Point (743167 # 10000) (165833 # 10000));
         ("Hatkanangle", Point (7445 # 100) (164333 # 10000));
         ("Shirol", Point (744667 # 10000) (167167 # 10000));
         ("Radhanagari", Point (739833 # 10000) (164167 # 10000));
         ("Gaganbawada", Point (737667 # 10000) (1655 # 100));
         ("Bhudargad", Point (740667 # 10000) (160167 # 10000));
         ("Gadhinglaj", Point (7435 # 100) (162333 # 10000));
         ("Chandgad", Point (742333 # 10000) (159833 # 10000));
         ("Ajra", Point (739667 # 10000) (161167 # 10000)) ]%string |}.

End Script.

(* ================================================================== *)
(** ** Vocabulary of the properties                                     *)
(* ================================================================== *)

Module Props.
Import EE Script.

(** Sum of a list of values, a missing one counting for nothing. *)
Fixpoint total (l : list (option Q)) : Q :=
  match l with
  | [] => 0%Q
  | Some v :: r => (v + total r)%Q
  | None :: r => total r
  end.

(** The native samples at [g] of the images of [c] stamped in [[s, e)]. *)
Definition samples (c : ImageCollection) (s e : Date) (g : Geometry)
  : list (option Q) :=
  map (fun i => precipitationCal i g) (filterDate s e c).

(** The image both extractions build for a window [[s, e)]: the sum of
    the study collection over the window, times 0.5. *)
Definition periodImage (cfg : Config) (catalog : ImageCollection) (s e : Date)
  : option Band :=
  multiply (1 # 2)
    (sum (select_precipitationCal (filterDate s e (imerg cfg catalog)))).

(** Plain sum of native samples. *)
Definition Qsum (l : list Q) : Q := fold_right Qplus 0%Q l.

(** *** Scenarios *)

Definition sameQ (a b : Q) : bool :=
  (Qnum a =? Qnum b) && Pos.eqb (Qden a) (Qden b).

Definition samePoint (g h : Geometry) : bool :=
  match g, h with
  | Point x y, Point x' y' => sameQ x x' && sameQ y y'
  | _, _ => false
  end.

(** A band with data at listed points only. *)
Fixpoint bandOf (l : list (Geometry * Q)) : Band :=
  fun g =>
    match l with
    | [] => None
    | (p, v) :: r => if samePoint p g then Some v else bandOf r g
    end.

Definition pointA : Geometry := Point (7424 # 100) (1670 # 100).
Definition pointB : Geometry := Point (7412 # 100) (1682 # 100).

(** Two regions and a study interval written 2020-01-01 to 2020-01-03. *)
Definition twoRegions : Config :=
  {| startDate := ymd 2020 1 1;
     endDate := ymd 2020 1 3;
     basin := Rectangle (735 # 10) (159 # 10) (747 # 10) (170 # 10);
     talukas := [("A", pointA); ("B", pointB)]%string |}.

Definition halfDay : Z := 43200000.

(** A: 1.0 and 2.0 on the first day, 0.0 on the second; B: nothing on the
    first day, 3.0 on the second. *)
Definition twoRegionsSource : ImageCollection :=
  [ mkImage (fromYMD 2020 1 1) (bandOf [(pointA, 1%Q)]);
    mkImage (fromYMD 2020 1 1 + halfDay) (bandOf [(pointA, 2%Q)]);
    mkImage (fromYMD 2020 1 2) (bandOf [(pointA, 0%Q); (pointB, 3%Q)]) ].

(** One calendar year, 2010, for the twelve talukas of the script. *)
Definition oneYear : Config :=
  {| startDate := ymd 2010 1 1;
     endDate := ymd 2010 12 31;
     basin := basin reference;
     talukas := talukas reference |}.

(** A study interval that starts in the middle of January 2006. *)
Definition midJanuary : Config :=
  {| startDate := ymd 2006 1 15;
     endDate := ymd 2006 3 1;
     basin := basin reference;
     talukas := [("A", pointA)]%string |}.

(** 4.0 on 2006-01-10, before the interval, and 2.0 on 2006-01-20. *)
Definition midJanuarySource : ImageCollection :=
  [ mkImage (fromYMD 2006 1 10) (bandOf [(pointA, 4%Q)]);
    mkImage (fromYMD 2006 1 20) (bandOf [(pointA, 2%Q)]) ].

(** Some image of [c] is stamped in [[s, e)]. *)
Definition hasImage (c : ImageCollection) (s e : Date) : Prop :=
  filterDate s e c <> [].

(** No image of [c] stamped in [[s, e)] has a value at [p]. *)
Definition noData (c : ImageCollection) (s e : Date) (p : Geometry) : Prop :=
  forall i, In i c -> inWindow s e (time_start i) = true -> precipitationCal i p = None.

(** The script's configuration with a source that has nothing for Ajra on
    2009-03-15: Ajra is covered the day before, Karvir on the day. *)
Definition pointAjra : Geometry := Point (739667 # 10000) (161167 # 10000).
Definition pointKarvir : Geometry := Point (742433 # 10000) (16705 # 1000).

Definition gapSource : ImageCollection :=
  [ mkImage (fromYMD 2009 3 14) (bandOf [(pointAjra, 7%Q)]);
    mkImage (fromYMD 2009 3 15) (bandOf [(pointKarvir, 5%Q)]) ].

(** The script's regions with the two dates of the interval exchanged. *)
Definition reversed : Config :=
  {| startDate := ymd 2025 12 31;
     endDate := ymd 2006 1 1;
     basin := basin reference;
     talukas := talukas reference |}.

(** Windows that follow one another from [a] to [b] without gap: each
    starts where the one before ends and is not empty. *)
Fixpoint chained (a : Z) (l : list (Z * Z)) (b : Z) : bool :=
  match l with
  | [] => a =? b
  | w :: r => (a =? fst w) && (fst w <? snd w) && chained (snd w) r b
  end.

(** The script's configuration with the end date written one day later. *)
Definition referencePlusOne : Config :=
  {| startDate := startDate reference;
     endDate := ymd 2026 1 1;
     basin := basin reference;
     talukas := talukas reference |}.

(** The two-region scenario with a third region added at the end. *)
Definition pointC : Geometry := Point (7400 # 100) (1650 # 100).

Definition threeRegions : Config :=
  {| startDate := startDate twoRegions;
     endDate := endDate twoRegions;
     basin := basin twoRegions;
     talukas := talukas twoRegions ++ [("C"%string, pointC)] |}.

(** Adjacent elements increase. *)
Fixpoint increasing (l : list Z) : bool :=
  match l with
  | a :: r => match r with
              | b :: _ => (a <? b) && increasing r
              | [] => true
              end
  | [] => true
  end.

(** Starts of the monthly periods, in the order of [yearMonths]. *)
Definition monthStarts : list Date :=
  map (fun ym => fromYMD (fst ym) (snd ym) 1) yearMonths.

(** The value the daily extraction reads for a taluka on the day [d]. *)
Definition dailyValue (cfg : Config) (catalog : ImageCollection) (d : Date)
           (name : string) : Reading :=
  valueAt (periodImage cfg catalog d (advance 1 Day d)) (get (talukas cfg) name).

(** Calendar years from that of [startDate] to that of [endDate]. *)
Definition yearsTouched (cfg : Config) : nat :=
  Z.to_nat (lit_year (endDate cfg) - lit_year (startDate cfg) + 1).

(** Calendar dates from [startDate] to [endDate], both included. *)
Definition daysInInterval (cfg : Config) : nat :=
  Z.to_nat (difference (Date_of (endDate cfg)) (Date_of (startDate cfg)) + 1).

(** First instant of the month after [y]-[m]. *)
Definition firstOfNextMonth (y m : Z) : Date :=
  if m =? 12 then fromYMD (y + 1) 1 1 else fromYMD y (m + 1) 1.

(** Position of a taluka in the catalog (its length when absent). *)
Fixpoint catalogIndex (keys : list string) (name : string) : nat :=
  match keys with
  | [] => O
  | k :: r => if String.eqb k name then O else S (catalogIndex r name)
  end.

(** Lexicographic order on (period start, catalog position). *)
Definition keyLt (a b : Z * nat) : Prop :=
  fst a < fst b \/ (fst a = fst b /\ (snd a < snd b)%nat).

Definition dailyKey (cfg : Config) (r : DailyFeature) : Z * nat :=
  (date r, catalogIndex (Object_keys (talukas cfg)) (taluka r)).

(** Two collections that hold the same images as far as the points of
    [pts] can tell: same time stamps, same values there. *)
Definition sameAt (pts : list Geometry) (a b : Image) : Prop :=
  time_start a = time_start b /\
  forall p, In p pts -> precipitationCal a p = precipitationCal b p.

Definition points (cfg : Config) : list Geometry := map snd (talukas cfg).

Definition withBasin (b : Geometry) (cfg : Config) : Config :=
  mkConfig (startDate cfg) (endDate cfg) b (talukas cfg).

Definition isMapEffect (e : Effect) : bool :=
  match e with
  | Map_centerObject _ _ | Map_addLayer _ _ _ => true
  | _ => false
  end.

End Props.

(* ================================================================== *)
(** ** Lists, sequences and the forEach/push idiom                      *)
(* ================================================================== *)

Import EE Script Props.

Lemma forEach_push {A B : Type} (f : A -> B) (l : list A) (acc : list B) :
  fold_left (fun features x => features ++ [f x]) l acc = acc ++ map f l.
Proof.
  revert acc. induction l as [|x l IH]; intros acc; simpl.
  - now rewrite app_nil_r.
  - rewrite IH, <- app_assoc. reflexivity.
Qed.

Lemma flat_map_length_const {A B : Type} (f : A -> list B) (n : nat) (l : list A) :
  (forall x, length (f x) = n) -> length (flat_map f l) = (length l * n)%nat.
Proof.
  intros Hf. induction l as [|x l IH]; simpl; [reflexivity|].
  rewrite length_app, Hf, IH. reflexivity.
Qed.

Lemma sequence_length (a b : Z) : length (sequence a b) = Z.to_nat (b - a + 1).
Proof. unfold sequence. now rewrite length_map, length_seq. Qed.

Lemma In_sequence (a b k : Z) : In k (sequence a b) <-> a <= k <= b.
Proof.
  unfold sequence. rewrite in_map_iff. split.
  - intros (n & <- & Hn). apply in_seq in Hn. lia.
  - intros H. exists (Z.to_nat (k - a)). split; [lia|]. apply in_seq. lia.
Qed.

Lemma sequence_sorted (a b : Z) : StronglySorted Z.lt (sequence a b).
Proof.
  unfold sequence. generalize (Z.to_nat (b - a + 1)) as n. intros n.
  generalize 0%nat as s. induction n as [|n IH]; intros s; simpl.
  - constructor.
  - constructor; [apply IH|].
    apply Forall_forall. intros x Hx. apply in_map_iff in Hx.
    destruct Hx as (k & <- & Hk). apply in_seq in Hk. lia.
Qed.

(** *** Midnights *)

Lemma fromYMD_midnight (y m d : Z) : fromYMD y m d mod millisPerDay = 0.
Proof. unfold fromYMD. rewrite Z.mul_comm. apply Z_mod_mult. Qed.

Lemma difference_midnights (y m d y' m' d' : Z) :
  difference (fromYMD y m d) (fromYMD y' m' d')
  = days_from_civil y m d - days_from_civil y' m' d'.
Proof.
  unfold difference, fromYMD. rewrite <- Z.mul_sub_distr_l, Z.mul_comm.
  apply Z_div_mult. reflexivity.
Qed.

Lemma advance_month_midnight (y m : Z) :
  exists n, advance 1 Month (fromYMD y m 1) = millisPerDay * n.
Proof.
  unfold advance.
  destruct (civil_from_days (fromYMD y m 1 / millisPerDay)) as [[y0 m0] d0].
  rewrite fromYMD_midnight, Z.add_0_r. unfold fromYMD. eauto.
Qed.

(** *** Sorted lists *)

Lemma StronglySorted_app {A : Type} (R : A -> A -> Prop) (l1 l2 : list A) :
  StronglySorted R l1 -> StronglySorted R l2 ->
  (forall x y, In x l1 -> In y l2 -> R x y) ->
  StronglySorted R (l1 ++ l2).
Proof.
  intros H1 H2 H. induction H1 as [|a l1 Hs IH Ha]; simpl; [exact H2|].
  constructor.
  - apply IH. intros x y Hx Hy. apply H; [now right|exact Hy].
  - apply Forall_app. split; [exact Ha|].
    apply Forall_forall. intros y Hy. apply H; [now left|exact Hy].
Qed.

Lemma StronglySorted_map {A B : Type} (RA : A -> A -> Prop) (RB : B -> B -> Prop)
      (f : A -> B) (l : list A) :
  (forall x y, In x l -> In y l -> RA x y -> RB (f x) (f y)) ->
  StronglySorted RA l -> StronglySorted RB (map f l).
Proof.
  intros Hf Hs. induction Hs as [|a l Hs IH Ha]; simpl; constructor.
  - apply IH. intros x y Hx Hy. apply Hf; now right.
  - apply Forall_forall. intros b Hb. apply in_map_iff in Hb.
    destruct Hb as (x & <- & Hx). rewrite Forall_forall in Ha.
    apply Hf; [now left|now right|now apply Ha].
Qed.

Lemma StronglySorted_lt_NoDup (l : list Z) : StronglySorted Z.lt l -> NoDup l.
Proof.
  induction 1 as [|a l Hs IH Ha]; constructor; [|exact IH].
  intros Hin. rewrite Forall_forall in Ha. specialize (Ha a Hin). lia.
Qed.

(** *** The catalog as an object *)

Lemma catalogIndex_sorted (keys : list string) :
  NoDup keys -> StronglySorted lt (map (catalogIndex keys) keys).
Proof.
  induction 1 as [|k r Hk Hnd IH]; simpl; [constructor|].
  rewrite String.eqb_refl.
  assert (Hmap : map (fun x => if String.eqb k x then O else S (catalogIndex r x)) r
                 = map S (map (catalogIndex r) r)).
  { rewrite map_map. apply map_ext_in. intros x Hx.
    destruct (String.eqb_spec k x) as [->|_]; [contradiction|reflexivity]. }
  rewrite Hmap. constructor.
  - apply StronglySorted_map with (RA := lt); [|exact IH]. intros; lia.
  - apply Forall_forall. intros n Hn. apply in_map_iff in Hn.
    destruct Hn as (j & <- & _). lia.
Qed.

Lemma get_entry {A : Type} (o : Object A) (k : string) (v : A) :
  NoDup (Object_keys o) -> In (k, v) o -> get o k = Some v.
Proof.
  induction o as [|[k' v'] o IH]; simpl; intros Hnd Hin; [contradiction|].
  inversion Hnd as [|? ? Hk' Hnd']; subst.
  destruct Hin as [Heq|Hin].
  - inversion Heq; subst. now rewrite String.eqb_refl.
  - destruct (String.eqb_spec k' k) as [->|_].
    + exfalso. apply Hk'. unfold Object_keys. apply in_map_iff.
      now exists (k, v).
    + now apply IH.
Qed.

Lemma filter_nil {A : Type} (f : A -> bool) (l : list A) :
  (forall x, In x l -> f x = false) -> filter f l = [].
Proof.
  induction l as [|a l IH]; simpl; intros H; [reflexivity|].
  rewrite (H a (or_introl eq_refl)). apply IH. intros x Hx. apply H. now right.
Qed.

Lemma filter_key_singleton (keys : list string) (name : string) :
  NoDup keys -> In name keys ->
  filter (fun k => String.eqb k name) keys = [name].
Proof.
  induction 1 as [|k r Hk Hnd IH]; simpl; intros Hin; [contradiction|].
  destruct (String.eqb_spec k name) as [->|Hne].
  - f_equal. apply filter_nil. intros x Hx.
    apply String.eqb_neq. intros ->. contradiction.
  - destruct Hin as [Heq|Hin]; [contradiction|]. now apply IH.
Qed.

(* ================================================================== *)
(** ** Shape of the rows                                                *)
(* ================================================================== *)

Section Shape.

Variable cfg : Config.
Variable catalog : ImageCollection.

Let keys := Object_keys (talukas cfg).
Let S0 := Date_of (startDate cfg).
Let E0 := Date_of (endDate cfg).

Lemma extractDailyRainfall_rows (d : Date) :
  extractDailyRainfall cfg catalog d
  = map (fun name =>
           mkDaily d name
             (valueAt (periodImage cfg catalog d (advance 1 Day d))
                (get (talukas cfg) name))) keys.
Proof.
  unfold extractDailyRainfall. cbv zeta.
  rewrite (forEach_push
    (fun name => mkDaily d name
       (valueAt (multiply (1 # 2)
          (sum (select_precipitationCal
             (filterDate d (advance 1 Day d) (imerg cfg catalog)))))
          (get (talukas cfg) name)))).
  reflexivity.
Qed.

Lemma extractMonthlyRainfall_rows (y m : Z) :
  extractMonthlyRainfall cfg catalog (y, m)
  = map (fun name =>
           mkMonthly y m name
             (valueAt (periodImage cfg catalog (fromYMD y m 1)
                         (advance 1 Month (fromYMD y m 1)))
                (get (talukas cfg) name))) keys.
Proof.
  unfold extractMonthlyRainfall. cbv zeta. simpl fst. simpl snd.
  rewrite (forEach_push
    (fun name => mkMonthly y m name
       (valueAt (multiply (1 # 2)
          (sum (select_precipitationCal
             (filterDate (fromYMD y m 1) (advance 1 Month (fromYMD y m 1))
                (imerg cfg catalog)))))
          (get (talukas cfg) name)))).
  reflexivity.
Qed.

Lemma dates_eq :
  dates cfg
  = map (fun k => S0 + k * millisPerDay) (sequence 0 (difference E0 S0 - 1)).
Proof. reflexivity. Qed.

Lemma dates_length : length (dates cfg) = Z.to_nat (difference E0 S0).
Proof.
  rewrite dates_eq, length_map, sequence_length. f_equal. lia.
Qed.

Lemma In_dates (d : Date) :
  In d (dates cfg) <-> exists k, 0 <= k < difference E0 S0 /\ d = S0 + k * millisPerDay.
Proof.
  rewrite dates_eq, in_map_iff. split.
  - intros (k & <- & Hk). apply In_sequence in Hk. exists k. split; [lia|reflexivity].
  - intros (k & Hk & ->). exists k. split; [reflexivity|]. apply In_sequence. lia.
Qed.

Lemma dates_sorted : StronglySorted Z.lt (dates cfg).
Proof.
  rewrite dates_eq.
  apply StronglySorted_map with (RA := Z.lt); [|apply sequence_sorted].
  intros x y _ _ Hxy. unfold millisPerDay. lia.
Qed.

Lemma rainfallData_length :
  length (rainfallData cfg catalog) = (length (dates cfg) * length (talukas cfg))%nat.
Proof.
  unfold rainfallData. apply flat_map_length_const. intros d.
  rewrite extractDailyRainfall_rows, length_map. unfold keys, Object_keys.
  apply length_map.
Qed.

End Shape.

(** The script on two regions and three half-day samples: dates written
    2020-01-01 to 2020-01-03 give the rows of 01-01 and 01-02, in date then
    catalog order, each value half the sum of the day's samples and null
    where a region is masked in the day's images. *)
Example twoRegions_rows :
  map (fun r => (EE.format (date r), taluka r, rainfall_mm r))
      (rainfallData twoRegions twoRegionsSource)
  = [ ("2020-01-01", "A", Value (3 # 2)); ("2020-01-01", "B", Null);
      ("2020-01-02", "A", Value (0 # 2)); ("2020-01-02", "B", Value (3 # 2)) ]%string.
Proof. vm_compute. reflexivity. Qed.

Example reference_index :
  Z.of_nat (length (dates reference)) = 7304 /\
  EE.format (hd 0 (dates reference)) = "2006-01-01"%string /\
  EE.format (last (dates reference) 0) = "2025-12-30"%string.
Proof. repeat split; vm_compute; reflexivity. Qed.

(* ================================================================== *)
(** ** Sums of samples                                                  *)
(* ================================================================== *)

Lemma add_unmasked_None (l : list (option Q)) :
  add_unmasked l = None <-> (forall o, In o l -> o = None).
Proof.
  induction l as [|[x|] l IH]; simpl.
  - split; [intros _ o []|reflexivity].
  - split.
    + destruct (add_unmasked l); discriminate.
    + intros H. specialize (H (Some x) (or_introl eq_refl)). discriminate.
  - rewrite IH. split.
    + intros H o [<-|Ho]; [reflexivity|now apply H].
    + intros H o Ho. apply H. now right.
Qed.

Lemma total_all_None (l : list (option Q)) :
  (forall o, In o l -> o = None) -> (total l == 0)%Q.
Proof.
  induction l as [|[x|] l IH]; simpl; intros H.
  - reflexivity.
  - specialize (H (Some x) (or_introl eq_refl)). discriminate.
  - apply IH. intros o Ho. apply H. now right.
Qed.

Lemma add_unmasked_total (l : list (option Q)) (v : Q) :
  add_unmasked l = Some v -> (v == total l)%Q.
Proof.
  revert v. induction l as [|[x|] l IH]; simpl; intros v Hv.
  - discriminate.
  - destruct (add_unmasked l) as [s|] eqn:Hs.
    + inversion Hv; subst. rewrite (IH s eq_refl). reflexivity.
    + inversion Hv; subst.
      rewrite (total_all_None l (proj1 (add_unmasked_None l) Hs)). ring.
  - now apply IH.
Qed.

(* ================================================================== *)
(** ** The daily index against a month                                  *)
(* ================================================================== *)

Section MonthOfDays.

Variable cfg : Config.
Variable catalog : ImageCollection.

Let S0 := Date_of (startDate cfg).
Let E0 := Date_of (endDate cfg).

Lemma interval_whole_days : E0 = S0 + difference E0 S0 * millisPerDay.
Proof.
  unfold E0, S0, Date_of. rewrite difference_midnights.
  unfold fromYMD, millisPerDay. lia.
Qed.

Lemma In_imerg (i : Image) :
  In i (imerg cfg catalog) <-> In i catalog /\ S0 <= time_start i < E0.
Proof.
  unfold imerg, select_precipitationCal, filterDate. rewrite filter_In.
  unfold inWindow. rewrite andb_true_iff, Z.leb_le, Z.ltb_lt. reflexivity.
Qed.

(** An instant of the study interval lies in the window of a day of the
    month exactly when it lies in the month, for a month whose bounds are
    midnights. *)
Lemma month_days_cover (a b t : Z) :
  S0 <= t < E0 ->
  existsb (fun d => inWindow d (advance 1 Day d) t)
    (filter (inWindow (millisPerDay * a) (millisPerDay * b)) (dates cfg))
  = inWindow (millisPerDay * a) (millisPerDay * b) t.
Proof.
  intros Ht.
  assert (HS : S0 = millisPerDay * days_from_civil (lit_year (startDate cfg))
                      (lit_month (startDate cfg)) (lit_day (startDate cfg)))
    by reflexivity.
  revert HS. generalize (days_from_civil (lit_year (startDate cfg))
                      (lit_month (startDate cfg)) (lit_day (startDate cfg))).
  intros s0 HS.
  apply eq_true_iff_eq. rewrite existsb_exists. split.
  - intros (d & Hd & Hw). apply filter_In in Hd. destruct Hd as [Hd Hm].
    apply In_dates in Hd. destruct Hd as (k & Hk & ->).
    fold S0 in Hw, Hm |- *.
    unfold inWindow, advance in *.
    rewrite andb_true_iff, Z.leb_le, Z.ltb_lt in *.
    unfold millisPerDay in *. lia.
  - intros Hm.
    assert (HE := interval_whole_days).
    set (k := (t - S0) / millisPerDay).
    assert (Hk : millisPerDay * k <= t - S0 < millisPerDay * (k + 1)).
    { unfold k. split.
      - apply Z.mul_div_le. reflexivity.
      - rewrite Z.mul_add_distr_l, Z.mul_1_r.
        pose proof (Z.mod_pos_bound (t - S0) millisPerDay eq_refl).
        pose proof (Z.div_mod (t - S0) millisPerDay). unfold millisPerDay in *. lia. }
    clearbody k.
    exists (S0 + k * millisPerDay). split.
    + apply filter_In. split.
      * apply In_dates. exists k. fold S0 E0. split; [|reflexivity].
        unfold millisPerDay in *. nia.
      * unfold inWindow in *. rewrite andb_true_iff, Z.leb_le, Z.ltb_lt in *.
        unfold millisPerDay in *. lia.
    + unfold inWindow, advance. rewrite andb_true_iff, Z.leb_le, Z.ltb_lt.
      unfold millisPerDay in *. lia.
Qed.

End MonthOfDays.

(* ================================================================== *)
(** ** The rows of one taluka                                           *)
(* ================================================================== *)

Lemma increasing_sorted (l : list Z) :
  increasing l = true -> StronglySorted Z.lt l.
Proof.
  intros H. apply Sorted_StronglySorted; [exact Z.lt_strorder.(StrictOrder_Transitive)|].
  induction l as [|a r IH]; [constructor|].
  simpl in H. destruct r as [|b r'].
  - constructor; constructor.
  - apply andb_true_iff in H. destruct H as [Hab Hr].
    constructor; [now apply IH|]. constructor. now apply Z.ltb_lt.
Qed.

Lemma monthStarts_sorted : StronglySorted Z.lt monthStarts.
Proof. apply increasing_sorted. vm_compute. reflexivity. Qed.

Lemma filter_of_map {A B : Type} (f : B -> bool) (g : A -> B) (l : list A) :
  filter f (map g l) = map g (filter (fun a => f (g a)) l).
Proof.
  induction l as [|a l IH]; simpl; [reflexivity|].
  destruct (f (g a)); simpl; now rewrite IH.
Qed.

Lemma filter_unique {A : Type} (f : A -> bool) (x : A) (l : list A) :
  NoDup l -> In x l -> (forall a, f a = true <-> a = x) -> filter f l = [x].
Proof.
  intros Hnd Hin Hf. induction Hnd as [|a l Ha Hnd IH]; [contradiction|].
  simpl. destruct (f a) eqn:E.
  - apply Hf in E. subst a. f_equal. apply filter_nil. intros b Hb.
    apply not_true_is_false. intros Hfb. apply Hf in Hfb. subst b. contradiction.
  - destruct Hin as [->|Hin]; [|now apply IH].
    rewrite (proj2 (Hf x) eq_refl) in E. discriminate.
Qed.

Section Rows.

Variable cfg : Config.
Variable catalog : ImageCollection.
Variable name : string.

Hypothesis keys_NoDup : NoDup (Object_keys (talukas cfg)).
Hypothesis name_key : In name (Object_keys (talukas cfg)).

Lemma filter_guarded_key (b : bool) :
  filter (fun k => b && String.eqb k name) (Object_keys (talukas cfg))
  = if b then [name] else [].
Proof.
  destruct b; cbn [andb].
  - exact (filter_key_singleton _ name keys_NoDup name_key).
  - apply filter_nil. reflexivity.
Qed.

Lemma daily_rows_of_taluka (P : Date -> bool) :
  filter (fun r => P (date r) && String.eqb (taluka r) name) (rainfallData cfg catalog)
  = map (fun d => mkDaily d name (dailyValue cfg catalog d name))
      (filter P (dates cfg)).
Proof.
  unfold rainfallData. induction (dates cfg) as [|d ds IH]; simpl; [reflexivity|].
  rewrite filter_app, IH, extractDailyRainfall_rows, filter_of_map.
  cbn [date taluka]. rewrite filter_guarded_key.
  destruct (P d); reflexivity.
Qed.

End Rows.

(* ================================================================== *)
(** ** The daily index                                                  *)
(* ================================================================== *)

(** C1.  On the script's own interval, 2006-01-01 to 2025-12-31, the daily
    index holds 7304 dates although the interval has 7305 calendar dates:
    it ends with 2025-12-30 and the end date itself is not in it. *)
Theorem dates_reference_stop_before_endDate :
  Z.of_nat (length (dates reference)) = 7304 /\
  Z.of_nat (daysInInterval reference) = 7305 /\
  last (dates reference) 0 = Date_of (ymd 2025 12 30) /\
  ~ In (Date_of (endDate reference)) (dates reference).
Proof.
  split; [vm_compute; reflexivity|].
  split; [vm_compute; reflexivity|].
  split; [vm_compute; reflexivity|].
  intros Hin. apply In_dates in Hin. destruct Hin as (k & Hk & E).
  pose proof (interval_whole_days reference) as HE.
  assert (Hd : difference (Date_of (endDate reference)) (Date_of (startDate reference))
               = 7304) by (vm_compute; reflexivity).
  rewrite Hd in Hk, HE. rewrite HE in E. unfold millisPerDay in E. lia.
Qed.

(* ================================================================== *)
(** ** What an extraction returns                                       *)
(* ================================================================== *)

Lemma total_map_Some (vals : list Q) : total (map Some vals) = Qsum vals.
Proof. induction vals as [|v r IH]; simpl; [reflexivity|now rewrite IH]. Qed.

(** The reading at a point of the image of a period: a failure when the
    period holds no image, null when it holds images but none with data
    at the point, else half the sum of the data. *)
Lemma valueAt_periodImage (cfg : Config) (catalog : ImageCollection)
      (s e : Date) (p : Geometry) :
  valueAt (periodImage cfg catalog s e) (Some p)
  = match filterDate s e (imerg cfg catalog) with
    | [] => NoSuchKey
    | _ :: _ =>
        match add_unmasked (samples (imerg cfg catalog) s e p) with
        | Some t => Value (t * (1 # 2))
        | None => Null
        end
    end.
Proof.
  unfold valueAt, reduceRegion_first, periodImage, multiply, sum,
    select_precipitationCal, samples.
  destruct (filterDate s e (imerg cfg catalog)) as [|i c]; cbn [option_map];
    [reflexivity|].
  destruct (add_unmasked (map (fun i0 => precipitationCal i0 p) (i :: c)));
    reflexivity.
Qed.

(** With samples [s_1..s_k], k >= 1, the value read at a point is half
    their sum. *)
Lemma value_half_sum (cfg : Config) (catalog : ImageCollection)
      (s e : Date) (p : Geometry) (vals : list Q) :
  samples (imerg cfg catalog) s e p = map Some vals -> vals <> [] ->
  exists v, valueAt (periodImage cfg catalog s e) (Some p) = Value v /\
            (v == Qsum vals * (1 # 2))%Q.
Proof.
  intros Hs Hne. rewrite valueAt_periodImage, Hs.
  destruct (filterDate s e (imerg cfg catalog)) as [|i c] eqn:Hf.
  - exfalso. unfold samples in Hs. rewrite Hf in Hs.
    destruct vals; [now apply Hne|discriminate].
  - destruct (add_unmasked (map Some vals)) as [t|] eqn:Ht.
    + exists (t * (1 # 2))%Q. split; [reflexivity|].
      rewrite (add_unmasked_total _ _ Ht), total_map_Some. reflexivity.
    + exfalso. destruct vals as [|v r]; [now apply Hne|].
      pose proof (proj1 (add_unmasked_None _) Ht (Some v) (or_introl eq_refl)).
      discriminate.
Qed.

(** C2, as stated, fails: region A has the samples 1.0 and 2.0 on
    2020-01-01, and its daily row carries 1.5, not their sum 3.0. *)
Lemma extract_is_not_the_plain_sum :
  samples twoRegionsSource (fromYMD 2020 1 1) (advance 1 Day (fromYMD 2020 1 1)) pointA
  = [Some 1%Q; Some 2%Q] /\
  exists v,
    In (mkDaily (fromYMD 2020 1 1) "A" (Value v)) (rainfallData twoRegions twoRegionsSource) /\
    ~ (v == Qsum [1%Q; 2%Q])%Q.
Proof.
  split; [vm_compute; reflexivity|].
  exists ((1 + (2 + 0)) * (1 # 2))%Q. split.
  - vm_compute. left. reflexivity.
  - vm_compute. discriminate.
Qed.

(** C2, amended.  For a taluka of the catalog and a period whose native
    samples in the study collection are [s_1..s_k], k >= 1, the daily and
    the monthly extraction both emit the row of that taluka with 0.5 times
    the sum of the samples: summed, not averaged, and scaled once by 0.5. *)
Theorem extract_is_half_the_sum (cfg : Config) (catalog : ImageCollection)
        (name : string) (p : Geometry) (vals : list Q) :
  NoDup (Object_keys (talukas cfg)) ->
  In (name, p) (talukas cfg) ->
  vals <> [] ->
  (forall d,
      samples (imerg cfg catalog) d (advance 1 Day d) p = map Some vals ->
      exists v, In (mkDaily d name (Value v)) (extractDailyRainfall cfg catalog d) /\
                (v == Qsum vals * (1 # 2))%Q) /\
  (forall y m,
      samples (imerg cfg catalog) (fromYMD y m 1) (advance 1 Month (fromYMD y m 1)) p
      = map Some vals ->
      exists v, In (mkMonthly y m name (Value v)) (extractMonthlyRainfall cfg catalog (y, m)) /\
                (v == Qsum vals * (1 # 2))%Q).
Proof.
  intros Hnd Hin Hne.
  assert (Hkey : In name (Object_keys (talukas cfg))).
  { unfold Object_keys. apply in_map_iff. now exists (name, p). }
  pose proof (get_entry _ _ _ Hnd Hin) as Hget.
  split.
  - intros d Hs. destruct (value_half_sum cfg catalog _ _ p vals Hs Hne) as (v & Hv & Hq).
    exists v. split; [|exact Hq].
    rewrite extractDailyRainfall_rows. apply in_map_iff. exists name.
    split; [|exact Hkey]. now rewrite Hget, Hv.
  - intros y m Hs. destruct (value_half_sum cfg catalog _ _ p vals Hs Hne) as (v & Hv & Hq).
    exists v. split; [|exact Hq].
    rewrite extractMonthlyRainfall_rows. apply in_map_iff. exists name.
    split; [|exact Hkey]. now rewrite Hget, Hv.
Qed.

Ltac distinct_keys :=
  repeat (constructor; [simpl; intuition discriminate|]); constructor.

(** The two samples of region A on 2020-01-01. *)
Lemma extract_is_half_the_sum_witness :
  samples (imerg twoRegions twoRegionsSource) (fromYMD 2020 1 1)
    (advance 1 Day (fromYMD 2020 1 1)) pointA = map Some [1%Q; 2%Q] /\
  exists v,
    In (mkDaily (fromYMD 2020 1 1) "A" (Value v))
       (extractDailyRainfall twoRegions twoRegionsSource (fromYMD 2020 1 1)) /\
    (v == Qsum [1%Q; 2%Q] * (1 # 2))%Q.
Proof.
  assert (Hs : samples (imerg twoRegions twoRegionsSource) (fromYMD 2020 1 1)
                 (advance 1 Day (fromYMD 2020 1 1)) pointA = map Some [1%Q; 2%Q])
    by (vm_compute; reflexivity).
  split; [exact Hs|].
  assert (Hnd : NoDup (Object_keys (talukas twoRegions))) by distinct_keys.
  assert (Hin : In ("A"%string, pointA) (talukas twoRegions)) by (left; reflexivity).
  assert (Hne : [1%Q; 2%Q] <> []) by discriminate.
  exact (proj1 (extract_is_half_the_sum twoRegions twoRegionsSource "A" pointA
                  [1%Q; 2%Q] Hnd Hin Hne) (fromYMD 2020 1 1) Hs).
Defined.

(* ================================================================== *)
(** ** The run                                                          *)
(* ================================================================== *)

Lemma monthlyData_throws (cfg : Config) (catalog : ImageCollection) :
  monthlyData cfg catalog = inl (TypeError "yearMonth.get is not a function").
Proof. reflexivity. Qed.

Lemma run_uncaught (cfg : Config) (catalog : ImageCollection) :
  run cfg catalog
  = Uncaught (effects cfg catalog) (TypeError "yearMonth.get is not a function").
Proof. reflexivity. Qed.

(** The daily mapping of line 77 goes through: its callback wraps its
    parameter. *)
Lemma rainfallData_mapped (cfg : Config) (catalog : ImageCollection) :
  flatten (List_map extractDailyRainfall_parameter (extractDailyRainfall cfg catalog)
             (dates cfg))
  = inr (rainfallData cfg catalog).
Proof.
  unfold flatten, List_map, extractDailyRainfall_parameter, rainfallData.
  now rewrite flat_map_concat_map.
Qed.

Lemma talukaLayers_exports (cfg : Config) :
  flat_map (fun e => match e with
                     | Export_table_toDrive t _ _ _ => [t]
                     | _ => []
                     end) (talukaLayers cfg) = [].
Proof.
  unfold talukaLayers.
  assert (H : forall l acc,
             flat_map (fun e => match e with
                                | Export_table_toDrive t _ _ _ => [t]
                                | _ => []
                                end) acc = [] ->
             flat_map (fun e => match e with
                                | Export_table_toDrive t _ _ _ => [t]
                                | _ => []
                                end)
               (fold_left
                  (fun layers talukaName =>
                     match get (talukas cfg) talukaName with
                     | Some point => layers ++ [Map_addLayer point "red" talukaName]
                     | None => layers
                     end) l acc) = []).
  { induction l as [|k l IH]; intros acc Hacc; simpl; [exact Hacc|].
    apply IH. destruct (get (talukas cfg) k); [|exact Hacc].
    rewrite flat_map_app, Hacc. reflexivity. }
  apply H. reflexivity.
Qed.

(** A run exports the daily table and nothing else. *)
Lemma exports_run (cfg : Config) (catalog : ImageCollection) :
  exports (run cfg catalog) = [DailyTable (rainfallData cfg catalog)].
Proof.
  rewrite run_uncaught. unfold exports, issued, effects.
  rewrite flat_map_app, talukaLayers_exports. reflexivity.
Qed.

(** C3.  On the script's own configuration, whatever the source holds:
    the mapping of line 142 throws, so the run is cut short after the
    daily export, the prints and the map calls, and no monthly dataset is
    built or exported, where 12 x 12 x 20 = 2880 monthly rows are claimed;
    and the daily dataset has 12 x 7304 = 87648 rows, where 12 x 7305 =
    87660 are claimed. *)
Theorem reference_run_builds_no_monthly_dataset (catalog : ImageCollection) :
  monthlyData reference catalog
    = inl (TypeError "yearMonth.get is not a function") /\
  run reference catalog
    = Uncaught (effects reference catalog)
        (TypeError "yearMonth.get is not a function") /\
  exports (run reference catalog) = [DailyTable (rainfallData reference catalog)] /\
  Z.of_nat (length (rainfallData reference catalog)) = 87648 /\
  Z.of_nat (length (talukas reference) * daysInInterval reference) = 87660 /\
  Z.of_nat (length (talukas reference) * 12 * yearsTouched reference) = 2880.
Proof.
  split; [apply monthlyData_throws|].
  split; [apply run_uncaught|].
  split; [apply exports_run|].
  split; [rewrite rainfallData_length; vm_compute; reflexivity|].
  split; vm_compute; reflexivity.
Qed.

(* ================================================================== *)
(** ** Pairs of the daily dataset                                       *)
(* ================================================================== *)

Lemma rainfallData_pairs (cfg : Config) (catalog : ImageCollection) :
  map (fun r => (date r, taluka r)) (rainfallData cfg catalog)
  = list_prod (dates cfg) (Object_keys (talukas cfg)).
Proof.
  unfold rainfallData. induction (dates cfg) as [|d ds IH]; simpl; [reflexivity|].
  rewrite map_app, IH, extractDailyRainfall_rows, map_map. reflexivity.
Qed.

(* ================================================================== *)
(** ** The window of a monthly query                                    *)
(* ================================================================== *)

Lemma filter_twice {A : Type} (f g : A -> bool) (l : list A) :
  filter f (filter g l) = filter (fun x => g x && f x) l.
Proof.
  induction l as [|a l IH]; simpl; [reflexivity|].
  destruct (g a); simpl; [destruct (f a)|]; now rewrite IH.
Qed.

Lemma month_ends (y m : Z) :
  In (y, m) yearMonths -> advance 1 Month (fromYMD y m 1) = firstOfNextMonth y m.
Proof.
  assert (H : forallb (fun ym => advance 1 Month (fromYMD (fst ym) (snd ym) 1)
                                 =? firstOfNextMonth (fst ym) (snd ym)) yearMonths = true)
    by (vm_compute; reflexivity).
  rewrite forallb_forall in H. intros Hin. apply Z.eqb_eq. exact (H (y, m) Hin).
Qed.

(** C4, as stated, fails: with the interval starting 2006-01-15, the source
    holds 4.0 on 2006-01-10 and 2.0 on 2006-01-20 in January 2006, but the
    monthly extraction of January 2006 sums only the second: its row
    carries 1.0, not half of 6.0. *)
Lemma monthly_extraction_leaves_out_samples_before_startDate :
  samples midJanuarySource (fromYMD 2006 1 1) (firstOfNextMonth 2006 1) pointA
  = [Some 4%Q; Some 2%Q] /\
  samples (imerg midJanuary midJanuarySource) (fromYMD 2006 1 1)
    (advance 1 Month (fromYMD 2006 1 1)) pointA
  = [Some 2%Q] /\
  exists v,
    In (mkMonthly 2006 1 "A" (Value v))
       (extractMonthlyRainfall midJanuary midJanuarySource (2006, 1)) /\
    (v == 1)%Q /\ ~ (v == Qsum [4%Q; 2%Q] * (1 # 2))%Q.
Proof.
  split; [vm_compute; reflexivity|].
  split; [vm_compute; reflexivity|].
  exists (2 * (1 # 2))%Q. split; [|split].
  - vm_compute. left. reflexivity.
  - vm_compute. reflexivity.
  - vm_compute. discriminate.
Qed.

(** C4, amended.  For every (year, month) pair the script generates, the
    monthly extraction filters on the whole calendar month
    [first-of-month, first-of-next-month), but over the collection that
    the script's filter on the study dates has already restricted: the
    images summed are those of the source that pass both filters, so
    samples before the start date are left out of a month the interval
    covers in part. *)
Theorem monthly_query_window (cfg : Config) (catalog : ImageCollection) (y m : Z) :
  In (y, m) yearMonths ->
  let inStudy := inWindow (Date_of (startDate cfg)) (Date_of (endDate cfg)) in
  let inMonth := inWindow (fromYMD y m 1) (firstOfNextMonth y m) in
  let summed := filter (fun i => inStudy (time_start i) && inMonth (time_start i)) catalog in
  advance 1 Month (fromYMD y m 1) = firstOfNextMonth y m /\
  filterDate (fromYMD y m 1) (advance 1 Month (fromYMD y m 1)) (imerg cfg catalog)
  = summed /\
  extractMonthlyRainfall cfg catalog (y, m)
  = map (fun name =>
           mkMonthly y m name
             (valueAt (multiply (1 # 2) (sum summed)) (get (talukas cfg) name)))
      (Object_keys (talukas cfg)).
Proof.
  intros Hin inStudy inMonth summed.
  pose proof (month_ends y m Hin) as Hend.
  assert (Hf : filterDate (fromYMD y m 1) (advance 1 Month (fromYMD y m 1))
                 (imerg cfg catalog) = summed).
  { rewrite Hend. unfold imerg, select_precipitationCal, filterDate.
    apply filter_twice. }
  split; [exact Hend|]. split; [exact Hf|].
  rewrite extractMonthlyRainfall_rows. unfold periodImage, select_precipitationCal.
  rewrite Hf. reflexivity.
Qed.

(** January 2006 for an interval that starts on 2006-01-15. *)
Lemma monthly_query_window_witness :
  In (2006, 1) yearMonths /\
  filterDate (fromYMD 2006 1 1) (advance 1 Month (fromYMD 2006 1 1))
    (imerg midJanuary midJanuarySource)
  = filter (fun i =>
              inWindow (Date_of (startDate midJanuary)) (Date_of (endDate midJanuary))
                (time_start i)
              && inWindow (fromYMD 2006 1 1) (firstOfNextMonth 2006 1) (time_start i))
      midJanuarySource.
Proof.
  assert (Hin : In (2006, 1) yearMonths) by (left; reflexivity).
  split; [exact Hin|].
  exact (proj1 (proj2 (monthly_query_window midJanuary midJanuarySource 2006 1 Hin))).
Defined.

(* ================================================================== *)
(** ** Missing values                                                   *)
(* ================================================================== *)

(** With an image in the period and none with data at the point, the
    reading is null. *)
Lemma masked_value (cfg : Config) (catalog : ImageCollection)
      (s e : Date) (p : Geometry) :
  hasImage (imerg cfg catalog) s e ->
  noData (imerg cfg catalog) s e p ->
  valueAt (periodImage cfg catalog s e) (Some p) = Null.
Proof.
  intros Hi Hno. rewrite valueAt_periodImage.
  destruct (filterDate s e (imerg cfg catalog)) as [|i c] eqn:Hf;
    [now elim Hi|].
  replace (add_unmasked (samples (imerg cfg catalog) s e p)) with (@None Q);
    [reflexivity|].
  symmetry. apply add_unmasked_None. intros o Ho.
  unfold samples, filterDate in Ho. apply in_map_iff in Ho.
  destruct Ho as (j & <- & Hj). apply filter_In in Hj. destruct Hj as [Hj Hw].
  exact (Hno j Hj Hw).
Qed.

(** C5.  The script's configuration on a source whose images of
    2009-03-15 have no data at Ajra.  The daily dataset holds exactly one
    row for Ajra on that date and its value is null, where a sample of 0.0
    (region A on 2020-01-02 in the two-region scenario) gives the value 0;
    but the run does not go on to its end: the mapping of line 142 throws,
    and the daily table is the only one exported. *)
Theorem gap_row_is_null_but_run_is_cut_short :
  EE.format (fromYMD 2009 3 15) = "2009-03-15"%string /\
  hasImage (imerg reference gapSource) (fromYMD 2009 3 15)
    (advance 1 Day (fromYMD 2009 3 15)) /\
  noData (imerg reference gapSource) (fromYMD 2009 3 15)
    (advance 1 Day (fromYMD 2009 3 15)) pointAjra /\
  filter (fun r => (date r =? fromYMD 2009 3 15) && String.eqb (taluka r) "Ajra")
    (rainfallData reference gapSource)
  = [mkDaily (fromYMD 2009 3 15) "Ajra" Null] /\
  In (mkDaily (fromYMD 2020 1 2) "A" (Value (0 # 2)))
     (rainfallData twoRegions twoRegionsSource) /\
  run reference gapSource
  = Uncaught (effects reference gapSource)
      (TypeError "yearMonth.get is not a function") /\
  exports (run reference gapSource) = [DailyTable (rainfallData reference gapSource)].
Proof.
  assert (Hd : In (fromYMD 2009 3 15) (dates reference)).
  { apply In_dates. exists 1169. split; vm_compute; [split; [discriminate|]|]; reflexivity. }
  assert (Hi : hasImage (imerg reference gapSource) (fromYMD 2009 3 15)
                 (advance 1 Day (fromYMD 2009 3 15)))
    by (vm_compute; discriminate).
  assert (Hno : noData (imerg reference gapSource) (fromYMD 2009 3 15)
                  (advance 1 Day (fromYMD 2009 3 15)) pointAjra).
  { intros i Hin Hw. vm_compute in Hin.
    destruct Hin as [<-|[<-|[]]]; vm_compute in Hw |- *;
      [discriminate Hw|reflexivity]. }
  assert (Hnd : NoDup (Object_keys (talukas reference))) by distinct_keys.
  assert (Hkey : In "Ajra"%string (Object_keys (talukas reference)))
    by (do 11 right; left; reflexivity).
  assert (Hin : In ("Ajra"%string, pointAjra) (talukas reference))
    by (do 11 right; left; reflexivity).
  split; [vm_compute; reflexivity|].
  split; [exact Hi|]. split; [exact Hno|]. split; [|split; [|split]].
  - rewrite (daily_rows_of_taluka reference gapSource "Ajra" Hnd Hkey
               (fun x => x =? fromYMD 2009 3 15)).
    rewrite (filter_unique _ (fromYMD 2009 3 15) (dates reference)
               (StronglySorted_lt_NoDup _ (dates_sorted reference)) Hd).
    + cbn [map]. unfold dailyValue. rewrite (get_entry _ _ _ Hnd Hin).
      now rewrite (masked_value reference gapSource _ _ pointAjra Hi Hno).
    + intros a. apply Z.eqb_eq.
  - vm_compute. right. right. left. reflexivity.
  - apply run_uncaught.
  - apply exports_run.
Qed.


(* ================================================================== *)
(** ** Row order                                                        *)
(* ================================================================== *)

Lemma product_keys_sorted (keys : list string) (starts : list Z) :
  NoDup keys -> StronglySorted Z.lt starts ->
  StronglySorted keyLt
    (flat_map (fun t => map (fun name => (t, catalogIndex keys name)) keys) starts).
Proof.
  intros Hnd Hs. induction Hs as [|t ts Hs IH Ht]; simpl; [constructor|].
  apply StronglySorted_app.
  - rewrite <- (map_map (catalogIndex keys) (fun i => (t, i))).
    apply StronglySorted_map with (RA := lt); [|now apply catalogIndex_sorted].
    intros i j _ _ Hij. right. split; [reflexivity|exact Hij].
  - exact IH.
  - intros x y Hx Hy. apply in_map_iff in Hx. destruct Hx as (k & <- & _).
    apply in_flat_map in Hy. destruct Hy as (t' & Ht' & Hy).
    apply in_map_iff in Hy. destruct Hy as (k' & <- & _).
    left. simpl. rewrite Forall_forall in Ht. now apply Ht.
Qed.

Lemma rainfallData_keys (cfg : Config) (catalog : ImageCollection) :
  map (dailyKey cfg) (rainfallData cfg catalog)
  = flat_map (fun t => map (fun name => (t, catalogIndex (Object_keys (talukas cfg)) name))
                         (Object_keys (talukas cfg))) (dates cfg).
Proof.
  unfold rainfallData. induction (dates cfg) as [|d ds IH]; simpl; [reflexivity|].
  rewrite map_app, IH, extractDailyRainfall_rows, map_map. reflexivity.
Qed.

(** C6.  In every run the daily dataset, the one dataset the run
    assembles and exports, is in ascending order of period start and,
    within one period, in the order of the talukas in the catalog. *)
Theorem daily_dataset_ordered_by_date_then_catalog (cfg : Config)
        (catalog : ImageCollection) :
  NoDup (Object_keys (talukas cfg)) ->
  StronglySorted keyLt (map (dailyKey cfg) (rainfallData cfg catalog)) /\
  exports (run cfg catalog) = [DailyTable (rainfallData cfg catalog)].
Proof.
  intros Hnd. split; [|apply exports_run].
  rewrite rainfallData_keys. apply product_keys_sorted; [exact Hnd|apply dates_sorted].
Qed.

(** The twelve talukas of the script. *)
Lemma daily_dataset_ordered_by_date_then_catalog_witness :
  NoDup (Object_keys (talukas reference)) /\
  StronglySorted keyLt (map (dailyKey reference) (rainfallData reference gapSource)).
Proof.
  assert (Hnd : NoDup (Object_keys (talukas reference))) by distinct_keys.
  split; [exact Hnd|].
  exact (proj1 (daily_dataset_ordered_by_date_then_catalog reference gapSource Hnd)).
Defined.

(* ================================================================== *)
(** ** What a run depends on                                            *)
(* ================================================================== *)

Lemma filterDate_same (pts : list Geometry) (c1 c2 : ImageCollection) (s e : Date) :
  Forall2 (sameAt pts) c1 c2 ->
  Forall2 (sameAt pts) (filterDate s e c1) (filterDate s e c2).
Proof.
  unfold filterDate. induction 1 as [|a b l1 l2 Hab Hl IH]; simpl; [constructor|].
  destruct Hab as [Ht Hv]. rewrite Ht.
  destruct (inWindow s e (time_start b)); [|exact IH].
  constructor; [split; assumption|exact IH].
Qed.

Lemma bands_same (pts : list Geometry) (c1 c2 : ImageCollection) (p : Geometry) :
  Forall2 (sameAt pts) c1 c2 -> In p pts ->
  map (fun i => precipitationCal i p) c1 = map (fun i => precipitationCal i p) c2.
Proof.
  intros H Hp. induction H as [|a b l1 l2 Hab Hl IH]; simpl; [reflexivity|].
  destruct Hab as [_ Hv]. now rewrite (Hv p Hp), IH.
Qed.

Lemma reading_same (pts : list Geometry) (c1 c2 : ImageCollection) (k : Q)
      (p : Geometry) :
  Forall2 (sameAt pts) c1 c2 -> In p pts ->
  reduceRegion_first (multiply k (sum c1)) p
  = reduceRegion_first (multiply k (sum c2)) p.
Proof.
  intros H Hp. pose proof (bands_same pts c1 c2 p H Hp) as Hb.
  destruct H as [|a b l1 l2 Hab Hl]; [reflexivity|].
  unfold sum, multiply, reduceRegion_first. cbn [option_map]. now rewrite Hb.
Qed.

Lemma periodImage_same (cfg : Config) (c1 c2 : ImageCollection) (s e : Date)
      (name : string) :
  Forall2 (sameAt (points cfg)) c1 c2 ->
  valueAt (periodImage cfg c1 s e) (get (talukas cfg) name)
  = valueAt (periodImage cfg c2 s e) (get (talukas cfg) name).
Proof.
  intros H. destruct (get (talukas cfg) name) as [p|] eqn:Hget; [|reflexivity].
  assert (Hp : In p (points cfg)).
  { unfold points. clear H. induction (talukas cfg) as [|[k v] o IH]; simpl in *;
      [discriminate|].
    destruct (String.eqb k name); [inversion Hget; now left|right; now apply IH]. }
  unfold valueAt, periodImage, select_precipitationCal, imerg.
  apply (reading_same (points cfg)); [|exact Hp].
  apply filterDate_same. apply filterDate_same. exact H.
Qed.

Lemma rainfallData_same (cfg : Config) (c1 c2 : ImageCollection) :
  Forall2 (sameAt (points cfg)) c1 c2 -> rainfallData cfg c1 = rainfallData cfg c2.
Proof.
  intros H. unfold rainfallData. apply flat_map_ext. intros d.
  rewrite !extractDailyRainfall_rows. apply map_ext. intros name.
  f_equal. now apply periodImage_same.
Qed.

(** C8.  Two runs on the same configuration and on sources that hold the
    same images at the catalog points end the same way after the same
    effects, and so export the same table, the daily one: same rows, same
    order, same values. *)
Theorem run_is_deterministic (cfg1 cfg2 : Config) (c1 c2 : ImageCollection) :
  cfg1 = cfg2 ->
  Forall2 (sameAt (points cfg1)) c1 c2 ->
  run cfg1 c1 = run cfg2 c2 /\
  exports (run cfg1 c1) = exports (run cfg2 c2) /\
  exports (run cfg1 c1) = [DailyTable (rainfallData cfg1 c1)].
Proof.
  intros <- H.
  assert (Hrun : run cfg1 c1 = run cfg1 c2).
  { rewrite !run_uncaught. unfold effects.
    now rewrite (rainfallData_same cfg1 c1 c2 H). }
  split; [exact Hrun|]. split; [now rewrite Hrun|apply exports_run].
Qed.

(** The same source twice. *)
Lemma run_is_deterministic_witness :
  Forall2 (sameAt (points twoRegions)) twoRegionsSource twoRegionsSource /\
  exports (run twoRegions twoRegionsSource) = exports (run twoRegions twoRegionsSource).
Proof.
  assert (H : Forall2 (sameAt (points twoRegions)) twoRegionsSource twoRegionsSource).
  { repeat constructor. }
  split; [exact H|].
  exact (proj1 (proj2 (run_is_deterministic twoRegions twoRegions twoRegionsSource
                         twoRegionsSource eq_refl H))).
Defined.

(* ================================================================== *)
(** ** An end date before the start date                                *)
(* ================================================================== *)

Lemma dates_empty (cfg : Config) :
  Date_of (endDate cfg) < Date_of (startDate cfg) -> dates cfg = [].
Proof.
  intros H. apply length_zero_iff_nil. rewrite dates_length.
  assert (Hd : difference (Date_of (endDate cfg)) (Date_of (startDate cfg)) < 0).
  { unfold difference. apply Z.div_lt_upper_bound; [reflexivity|]. lia. }
  lia.
Qed.

(** C9, as stated, fails: with the two dates exchanged the run raises no
    configuration error; it goes on to export the daily table, with no
    row. *)
Lemma reversed_interval_raises_no_configuration_error :
  Date_of (endDate reversed) < Date_of (startDate reversed) /\
  run reversed gapSource <> ConfigurationError /\
  exports (run reversed gapSource) = [DailyTable []].
Proof.
  split; [vm_compute; reflexivity|].
  split; [rewrite run_uncaught; discriminate|].
  rewrite exports_run. reflexivity.
Qed.

(** C9, amended.  When end_date is before start_date the script raises no
    configuration error: the daily index is empty, and the daily dataset
    is exported with no row. *)
Theorem end_before_start_exports_empty_daily_table (cfg : Config)
        (catalog : ImageCollection) :
  Date_of (endDate cfg) < Date_of (startDate cfg) ->
  run cfg catalog <> ConfigurationError /\
  dates cfg = [] /\
  rainfallData cfg catalog = [] /\
  exports (run cfg catalog) = [DailyTable []].
Proof.
  intros H. pose proof (dates_empty cfg H) as Hd.
  assert (Hr : rainfallData cfg catalog = [])
    by (unfold rainfallData; now rewrite Hd).
  split; [rewrite run_uncaught; discriminate|]. split; [exact Hd|].
  split; [exact Hr|]. now rewrite exports_run, Hr.
Qed.

(** The script's two dates exchanged. *)
Lemma end_before_start_exports_empty_daily_table_witness :
  Date_of (endDate reversed) < Date_of (startDate reversed) /\
  dates reversed = [] /\
  exports (run reversed gapSource) = [DailyTable []].
Proof.
  assert (H : Date_of (endDate reversed) < Date_of (startDate reversed))
    by (vm_compute; reflexivity).
  split; [exact H|].
  pose proof (end_before_start_exports_empty_daily_table reversed gapSource H)
    as (_ & Hd & _ & He).
  split; [exact Hd|exact He].
Defined.

(* ================================================================== *)
(** ** The basin rectangle                                              *)
(* ================================================================== *)

(** C10.  Two runs whose configurations differ at most in the basin
    geometry build the same daily dataset, get the same rows from the
    monthly extraction of any month, export the same table and print the
    same things: the basin reaches the map calls only. *)
Theorem basin_reaches_the_map_only (cfg1 cfg2 : Config) (catalog : ImageCollection) :
  startDate cfg1 = startDate cfg2 ->
  endDate cfg1 = endDate cfg2 ->
  talukas cfg1 = talukas cfg2 ->
  rainfallData cfg1 catalog = rainfallData cfg2 catalog /\
  (forall ym, extractMonthlyRainfall cfg1 catalog ym
              = extractMonthlyRainfall cfg2 catalog ym) /\
  exports (run cfg1 catalog) = exports (run cfg2 catalog) /\
  filter (fun e => negb (isMapEffect e)) (issued (run cfg1 catalog))
  = filter (fun e => negb (isMapEffect e)) (issued (run cfg2 catalog)).
Proof.
  destruct cfg1 as [s1 e1 b1 t1], cfg2 as [s2 e2 b2 t2].
  cbn [startDate endDate talukas]. intros -> -> ->.
  repeat split; reflexivity.
Qed.

(** The script's configuration with another basin geometry. *)
Lemma basin_reaches_the_map_only_witness :
  basin (withBasin pointA reference) <> basin reference /\
  exports (run (withBasin pointA reference) gapSource)
  = exports (run reference gapSource).
Proof.
  split; [discriminate|].
  exact (proj1 (proj2 (proj2
           (basin_reaches_the_map_only (withBasin pointA reference) reference gapSource
              eq_refl eq_refl eq_refl)))).
Defined.


(* ================================================================== *)
(** ** The daily index in general                                       *)
(* ================================================================== *)

Section DailyIndex.

Variable cfg : Config.

Let S0 := Date_of (startDate cfg).
Let E0 := Date_of (endDate cfg).

Lemma start_midnight : exists s0, S0 = millisPerDay * s0.
Proof. unfold S0, Date_of, fromYMD. eauto. Qed.

Lemma dates_within (d : Date) :
  In d (dates cfg) -> S0 <= d /\ d + millisPerDay <= E0 /\ d mod millisPerDay = 0.
Proof.
  intros Hd. apply In_dates in Hd. destruct Hd as (k & Hk & ->).
  fold S0 E0 in Hk |- *. pose proof (interval_whole_days cfg) as HE.
  fold S0 E0 in HE. destruct start_midnight as (s0 & Hs).
  split; [unfold millisPerDay; lia|]. split; [unfold millisPerDay in *; nia|].
  rewrite Hs. replace (millisPerDay * s0 + k * millisPerDay)
    with ((s0 + k) * millisPerDay) by (unfold millisPerDay; lia).
  apply Z_mod_mult.
Qed.

(** X1.  The daily periods tile the half-open interval from [startDate]
    to [endDate]: an instant lies in the window of some generated date
    exactly when it is at or after the start and before the end, and then
    in the window of one date only. *)
Theorem daily_periods_tile_interval (t : Z) :
  ((exists d, In d (dates cfg) /\ inWindow d (advance 1 Day d) t = true)
   <-> S0 <= t < E0) /\
  (forall d d', In d (dates cfg) -> In d' (dates cfg) ->
     inWindow d (advance 1 Day d) t = true ->
     inWindow d' (advance 1 Day d') t = true -> d = d').
Proof.
  pose proof (interval_whole_days cfg) as HE. fold S0 E0 in HE.
  split; [split|].
  - intros (d & Hd & Hw). destruct (dates_within d Hd) as (H1 & H2 & _).
    unfold inWindow, advance in Hw.
    rewrite andb_true_iff, Z.leb_le, Z.ltb_lt in Hw.
    unfold millisPerDay in *. lia.
  - intros Ht.
    set (k := (t - S0) / millisPerDay).
    assert (Hk : millisPerDay * k <= t - S0 < millisPerDay * (k + 1)).
    { unfold k. split.
      - apply Z.mul_div_le. reflexivity.
      - pose proof (Z.mod_pos_bound (t - S0) millisPerDay eq_refl).
        pose proof (Z.div_mod (t - S0) millisPerDay).
        unfold millisPerDay in *. lia. }
    clearbody k. exists (S0 + k * millisPerDay). split.
    + apply In_dates. exists k. fold S0 E0. split; [|reflexivity].
      unfold millisPerDay in *. nia.
    + unfold inWindow, advance. rewrite andb_true_iff, Z.leb_le, Z.ltb_lt.
      unfold millisPerDay in *. lia.
  - intros d d' Hd Hd' Hw Hw'.
    apply In_dates in Hd, Hd'. destruct Hd as (k & _ & ->), Hd' as (k' & _ & ->).
    unfold inWindow, advance in Hw, Hw'.
    rewrite andb_true_iff, Z.leb_le, Z.ltb_lt in Hw, Hw'.
    assert (k = k') by (unfold millisPerDay in *; lia). now subst.
Qed.

(** X2.  The daily index has as many dates as there are whole days from
    [startDate] to [endDate], none when the end is not after the start;
    every date in it is a midnight at or after the start whose whole day
    ends by the end date. *)
Theorem daily_index_size :
  Z.of_nat (length (dates cfg))
  = Z.max 0 (days_from_civil (lit_year (endDate cfg)) (lit_month (endDate cfg))
               (lit_day (endDate cfg))
             - days_from_civil (lit_year (startDate cfg)) (lit_month (startDate cfg))
                 (lit_day (startDate cfg))) /\
  (dates cfg = [] <-> E0 <= S0) /\
  (forall catalog, rainfallData cfg catalog = [] <-> E0 <= S0 \/ talukas cfg = []) /\
  (forall d, In d (dates cfg) ->
     S0 <= d /\ d + millisPerDay <= E0 /\ d mod millisPerDay = 0).
Proof.
  pose proof (interval_whole_days cfg) as HE. fold S0 E0 in HE.
  assert (Hlen : Z.of_nat (length (dates cfg)) = Z.max 0 (difference E0 S0)).
  { rewrite dates_length. fold S0 E0. lia. }
  assert (Hnil : dates cfg = [] <-> E0 <= S0).
  { rewrite <- length_zero_iff_nil. unfold millisPerDay in HE. lia. }
  split; [|split; [exact Hnil|split; [|exact dates_within]]].
  - rewrite Hlen. unfold E0, S0, Date_of. now rewrite difference_midnights.
  - intros catalog.
    rewrite <- Hnil, <- (length_zero_iff_nil (dates cfg)),
      <- (length_zero_iff_nil (talukas cfg)),
      <- (length_zero_iff_nil (rainfallData cfg catalog)), rainfallData_length.
    apply Nat.mul_eq_0.
Qed.

End DailyIndex.

(* ================================================================== *)
(** ** Queries against the study filter                                 *)
(* ================================================================== *)

Lemma flat_map_ext_in {A B : Type} (f g : A -> list B) (l : list A) :
  (forall x, In x l -> f x = g x) -> flat_map f l = flat_map g l.
Proof.
  induction l as [|a l IH]; intros H; simpl; [reflexivity|].
  rewrite (H a (or_introl eq_refl)), IH; [reflexivity|].
  intros x Hx. apply H. now right.
Qed.

(** A window inside the study interval sees the same images in the study
    collection as in the source. *)
Lemma window_inside_study (cfg : Config) (catalog : ImageCollection) (s e : Date) :
  Date_of (startDate cfg) <= s -> e <= Date_of (endDate cfg) ->
  filterDate s e (imerg cfg catalog) = filterDate s e catalog.
Proof.
  intros Hs He. unfold imerg, select_precipitationCal, filterDate.
  rewrite filter_twice. apply filter_ext. intros i. unfold inWindow.
  destruct (s <=? time_start i) eqn:E1, (time_start i <? e) eqn:E2;
    rewrite ?andb_false_r; try reflexivity.
  apply Z.leb_le in E1. apply Z.ltb_lt in E2. cbn [andb]. rewrite andb_true_r.
  apply andb_true_iff. rewrite Z.leb_le, Z.ltb_lt. lia.
Qed.

(** A window that does not meet the study interval sees no image. *)
Lemma window_outside_study (cfg : Config) (catalog : ImageCollection) (s e : Date) :
  e <= Date_of (startDate cfg) \/ Date_of (endDate cfg) <= s ->
  filterDate s e (imerg cfg catalog) = [].
Proof.
  intros H. unfold imerg, select_precipitationCal, filterDate.
  rewrite filter_twice. apply filter_nil. intros i _. unfold inWindow.
  apply not_true_is_false. rewrite !andb_true_iff, !Z.leb_le, !Z.ltb_lt. lia.
Qed.

Lemma daily_index_window (cfg : Config) (catalog : ImageCollection) (d : Date) :
  In d (dates cfg) ->
  filterDate d (advance 1 Day d) (imerg cfg catalog)
  = filterDate d (advance 1 Day d) catalog.
Proof.
  intros Hd. destruct (dates_within cfg d Hd) as (H1 & H2 & _).
  apply window_inside_study; [exact H1|].
  unfold advance. unfold millisPerDay in *. lia.
Qed.

(** X3.  For a generated date, the daily query reads the same images from
    the study collection as from the unfiltered source; the rows of that
    day are therefore the same for two sources that hold the same images
    in the day's window, whatever they hold elsewhere. *)
Theorem daily_query_reads_its_day_only (cfg : Config) (catalog : ImageCollection)
        (d : Date) :
  In d (dates cfg) ->
  filterDate d (advance 1 Day d) (imerg cfg catalog)
  = filterDate d (advance 1 Day d) catalog /\
  (forall catalog',
      filterDate d (advance 1 Day d) catalog' = filterDate d (advance 1 Day d) catalog ->
      extractDailyRainfall cfg catalog' d = extractDailyRainfall cfg catalog d).
Proof.
  intros Hd. destruct (dates_within cfg d Hd) as (H1 & H2 & _).
  assert (Hw : forall c, filterDate d (advance 1 Day d) (imerg cfg c)
                         = filterDate d (advance 1 Day d) c).
  { intros c. apply window_inside_study; [exact H1|].
    unfold advance. unfold millisPerDay in *. lia. }
  split; [apply Hw|].
  intros catalog' Heq. rewrite !extractDailyRainfall_rows.
  unfold periodImage, select_precipitationCal. now rewrite !Hw, Heq.
Qed.

(** The first day of the two-region scenario. *)
Lemma daily_query_reads_its_day_only_witness :
  In (fromYMD 2020 1 1) (dates twoRegions) /\
  filterDate (fromYMD 2020 1 1) (advance 1 Day (fromYMD 2020 1 1))
    (imerg twoRegions twoRegionsSource)
  = filterDate (fromYMD 2020 1 1) (advance 1 Day (fromYMD 2020 1 1)) twoRegionsSource.
Proof.
  assert (Hd : In (fromYMD 2020 1 1) (dates twoRegions)) by (left; reflexivity).
  split; [exact Hd|].
  exact (proj1 (daily_query_reads_its_day_only twoRegions twoRegionsSource _ Hd)).
Defined.

(** X4.  For a generated month that lies wholly inside the study interval,
    the monthly query reads every image of the source stamped in that
    calendar month. *)
Theorem month_inside_interval_is_whole (cfg : Config) (catalog : ImageCollection)
        (y m : Z) :
  In (y, m) yearMonths ->
  Date_of (startDate cfg) <= fromYMD y m 1 ->
  firstOfNextMonth y m <= Date_of (endDate cfg) ->
  filterDate (fromYMD y m 1) (advance 1 Month (fromYMD y m 1)) (imerg cfg catalog)
  = filterDate (fromYMD y m 1) (firstOfNextMonth y m) catalog.
Proof.
  intros Hym Hs He. rewrite (month_ends y m Hym).
  now apply window_inside_study.
Qed.

(** January 2006 in the script's configuration. *)
Lemma month_inside_interval_is_whole_witness :
  filterDate (fromYMD 2006 1 1) (advance 1 Month (fromYMD 2006 1 1))
    (imerg reference gapSource)
  = filterDate (fromYMD 2006 1 1) (firstOfNextMonth 2006 1) gapSource.
Proof.
  apply (month_inside_interval_is_whole reference gapSource 2006 1).
  - left. reflexivity.
  - vm_compute. discriminate.
  - vm_compute. discriminate.
Defined.

(** X5.  For a generated month that does not meet the study interval, the
    monthly query reads no image at all, whatever the source holds for
    that month. *)
Theorem month_outside_interval_reads_no_image (cfg : Config)
        (catalog : ImageCollection) (y m : Z) :
  In (y, m) yearMonths ->
  firstOfNextMonth y m <= Date_of (startDate cfg)
  \/ Date_of (endDate cfg) <= fromYMD y m 1 ->
  filterDate (fromYMD y m 1) (advance 1 Month (fromYMD y m 1)) (imerg cfg catalog)
  = [].
Proof.
  intros Hym Hout. apply window_outside_study. now rewrite (month_ends y m Hym).
Qed.

(** January 2006, in which the source has two images, when the study
    interval is the year 2010. *)
Lemma month_outside_interval_reads_no_image_witness :
  length (filterDate (fromYMD 2006 1 1) (firstOfNextMonth 2006 1) midJanuarySource)
  = 2%nat /\
  filterDate (fromYMD 2006 1 1) (advance 1 Month (fromYMD 2006 1 1))
    (imerg oneYear midJanuarySource)
  = [].
Proof.
  split; [vm_compute; reflexivity|].
  apply (month_outside_interval_reads_no_image oneYear midJanuarySource 2006 1).
  - left. reflexivity.
  - left. vm_compute. discriminate.
Defined.

(* ================================================================== *)
(** ** The value of a row                                               *)
(* ================================================================== *)

Lemma value_with_images (cfg : Config) (catalog : ImageCollection)
      (s e : Date) (p : Geometry) :
  hasImage (imerg cfg catalog) s e ->
  (valueAt (periodImage cfg catalog s e) (Some p) = Null
   <-> noData (imerg cfg catalog) s e p) /\
  (forall v, valueAt (periodImage cfg catalog s e) (Some p) = Value v ->
             (v == total (samples (imerg cfg catalog) s e p) * (1 # 2))%Q) /\
  valueAt (periodImage cfg catalog s e) (Some p) <> NoSuchKey.
Proof.
  intros Hi. split; [split|split].
  - rewrite valueAt_periodImage.
    destruct (filterDate s e (imerg cfg catalog)) as [|i0 c] eqn:Hf; [discriminate|].
    destruct (add_unmasked (samples (imerg cfg catalog) s e p)) eqn:Ha;
      [discriminate|].
    intros _ i Hin Hw. apply (proj1 (add_unmasked_None _) Ha).
    unfold samples, filterDate. apply in_map_iff. exists i.
    split; [reflexivity|]. apply filter_In. now split.
  - intros H. now apply masked_value.
  - intros v. rewrite valueAt_periodImage.
    destruct (filterDate s e (imerg cfg catalog)) as [|i0 c]; [discriminate|].
    destruct (add_unmasked (samples (imerg cfg catalog) s e p)) as [t|] eqn:Ha;
      [|discriminate].
    intros Hv. inversion Hv; subst. now rewrite (add_unmasked_total _ _ Ha).
  - rewrite valueAt_periodImage.
    destruct (filterDate s e (imerg cfg catalog)) as [|i0 c] eqn:Hf; [now elim Hi|].
    destruct (add_unmasked (samples (imerg cfg catalog) s e p)); discriminate.
Qed.

(** X6.  In the row that the daily or the monthly extraction builds for a
    catalog taluka over a period in which the study collection holds an
    image, the value is null exactly when none of the period's images has
    data at the taluka's point; otherwise it is half the sum of the
    values that are present, masked ones being skipped. *)
Theorem row_value_is_null_or_half_sum (cfg : Config) (catalog : ImageCollection)
        (name : string) (p : Geometry) :
  NoDup (Object_keys (talukas cfg)) ->
  In (name, p) (talukas cfg) ->
  (forall d o,
     hasImage (imerg cfg catalog) d (advance 1 Day d) ->
     In (mkDaily d name o) (extractDailyRainfall cfg catalog d) ->
     (o = Null <-> noData (imerg cfg catalog) d (advance 1 Day d) p) /\
     (forall v, o = Value v ->
        (v == total (samples (imerg cfg catalog) d (advance 1 Day d) p) * (1 # 2))%Q) /\
     o <> NoSuchKey) /\
  (forall y m o,
     hasImage (imerg cfg catalog) (fromYMD y m 1) (advance 1 Month (fromYMD y m 1)) ->
     In (mkMonthly y m name o) (extractMonthlyRainfall cfg catalog (y, m)) ->
     (o = Null <-> noData (imerg cfg catalog) (fromYMD y m 1)
                     (advance 1 Month (fromYMD y m 1)) p) /\
     (forall v, o = Value v ->
        (v == total (samples (imerg cfg catalog) (fromYMD y m 1)
                       (advance 1 Month (fromYMD y m 1)) p) * (1 # 2))%Q) /\
     o <> NoSuchKey).
Proof.
  intros Hnd Hin. pose proof (get_entry _ _ _ Hnd Hin) as Hget. split.
  - intros d o Hi Hrow. rewrite extractDailyRainfall_rows in Hrow.
    apply in_map_iff in Hrow. destruct Hrow as (k & E & _).
    pose proof (f_equal taluka E) as Ek. pose proof (f_equal rainfall_mm E) as Eo.
    cbn [taluka rainfall_mm] in Ek, Eo. subst k o.
    rewrite Hget. now apply value_with_images.
  - intros y m o Hi Hrow. rewrite extractMonthlyRainfall_rows in Hrow.
    apply in_map_iff in Hrow. destruct Hrow as (k & E & _).
    pose proof (f_equal m_taluka E) as Ek. pose proof (f_equal m_rainfall_mm E) as Eo.
    cbn [m_taluka m_rainfall_mm] in Ek, Eo. subst k o.
    rewrite Hget. now apply value_with_images.
Qed.

(** Region B on the first day of the two-region scenario: the day has two
    images, neither with data at B. *)
Lemma row_value_is_null_or_half_sum_witness :
  hasImage (imerg twoRegions twoRegionsSource) (fromYMD 2020 1 1)
    (advance 1 Day (fromYMD 2020 1 1)) /\
  In (mkDaily (fromYMD 2020 1 1) "B" Null)
     (extractDailyRainfall twoRegions twoRegionsSource (fromYMD 2020 1 1)) /\
  noData (imerg twoRegions twoRegionsSource) (fromYMD 2020 1 1)
    (advance 1 Day (fromYMD 2020 1 1)) pointB.
Proof.
  assert (Hi : hasImage (imerg twoRegions twoRegionsSource) (fromYMD 2020 1 1)
                 (advance 1 Day (fromYMD 2020 1 1)))
    by (vm_compute; discriminate).
  assert (Hrow : In (mkDaily (fromYMD 2020 1 1) "B" Null)
                   (extractDailyRainfall twoRegions twoRegionsSource (fromYMD 2020 1 1)))
    by (right; left; vm_compute; reflexivity).
  split; [exact Hi|]. split; [exact Hrow|].
  assert (Hnd : NoDup (Object_keys (talukas twoRegions))) by distinct_keys.
  assert (Hin : In ("B"%string, pointB) (talukas twoRegions))
    by (right; left; reflexivity).
  exact (proj1 (proj1 (proj1 (row_value_is_null_or_half_sum twoRegions twoRegionsSource
                         "B" pointB Hnd Hin) _ _ Hi Hrow)) eq_refl).
Defined.


Lemma total_nonneg (l : list (option Q)) :
  (forall v, In (Some v) l -> (0 <= v)%Q) -> (0 <= total l)%Q.
Proof.
  induction l as [|[x|] l IH]; simpl; intros H.
  - apply Qle_refl.
  - replace 0%Q with (0 + 0)%Q by reflexivity. apply Qplus_le_compat.
    + apply H. now left.
    + apply IH. intros v Hv. apply H. now right.
  - apply IH. intros v Hv. apply H. now right.
Qed.

(** X7.  When no sample of the source at a taluka's point is negative, no
    value of that taluka is negative, in the daily dataset or in the rows
    the monthly extraction builds for any month. *)
Theorem nonnegative_samples_give_nonnegative_values (cfg : Config)
        (catalog : ImageCollection) (name : string) (p : Geometry) :
  NoDup (Object_keys (talukas cfg)) ->
  In (name, p) (talukas cfg) ->
  (forall i v, In i catalog -> precipitationCal i p = Some v -> (0 <= v)%Q) ->
  (forall r v, In r (rainfallData cfg catalog) -> taluka r = name ->
               rainfall_mm r = Value v -> (0 <= v)%Q) /\
  (forall y m r v, In r (extractMonthlyRainfall cfg catalog (y, m)) ->
               m_taluka r = name -> m_rainfall_mm r = Value v -> (0 <= v)%Q).
Proof.
  intros Hnd Hin Hpos. pose proof (get_entry _ _ _ Hnd Hin) as Hget.
  assert (Hval : forall s e v,
             valueAt (periodImage cfg catalog s e) (Some p) = Value v -> (0 <= v)%Q).
  { intros s e v. rewrite valueAt_periodImage.
    destruct (filterDate s e (imerg cfg catalog)) as [|i0 c] eqn:Hf; [discriminate|].
    destruct (add_unmasked (samples (imerg cfg catalog) s e p)) as [t|] eqn:Ha;
      [|discriminate].
    intros Hv. inversion Hv; subst. rewrite (add_unmasked_total _ _ Ha).
    apply Qmult_le_0_compat; [|discriminate].
    apply total_nonneg. intros x Hx. unfold samples, filterDate in Hx.
    apply in_map_iff in Hx. destruct Hx as (i & Hi & Hin').
    apply filter_In in Hin'. destruct Hin' as [Hin' _].
    apply In_imerg in Hin'. destruct Hin' as [Hin' _].
    exact (Hpos i x Hin' Hi). }
  split.
  - intros r v Hr Hname Hv. unfold rainfallData in Hr. apply in_flat_map in Hr.
    destruct Hr as (d & _ & Hr). rewrite extractDailyRainfall_rows in Hr.
    apply in_map_iff in Hr. destruct Hr as (k & <- & _).
    cbn [taluka rainfall_mm] in Hname, Hv. subst k. rewrite Hget in Hv.
    exact (Hval _ _ _ Hv).
  - intros y m r v Hr Hname Hv. rewrite extractMonthlyRainfall_rows in Hr.
    apply in_map_iff in Hr. destruct Hr as (k & <- & _).
    cbn [m_taluka m_rainfall_mm] in Hname, Hv. subst k. rewrite Hget in Hv.
    exact (Hval _ _ _ Hv).
Qed.

(** Region A of the two-region scenario: samples 1.0, 2.0 and 0.0. *)
Lemma nonnegative_samples_give_nonnegative_values_witness :
  In (mkDaily (fromYMD 2020 1 1) "A" (Value (3 # 2)))
     (rainfallData twoRegions twoRegionsSource) /\
  (0 <= 3 # 2)%Q.
Proof.
  assert (Hrow : In (mkDaily (fromYMD 2020 1 1) "A" (Value (3 # 2)))
                   (rainfallData twoRegions twoRegionsSource))
    by (left; vm_compute; reflexivity).
  split; [exact Hrow|].
  assert (Hnd : NoDup (Object_keys (talukas twoRegions))) by distinct_keys.
  assert (Hin : In ("A"%string, pointA) (talukas twoRegions)) by (left; reflexivity).
  assert (Hpos : forall i v, In i twoRegionsSource ->
                   precipitationCal i pointA = Some v -> (0 <= v)%Q).
  { intros i v Hi Hv. destruct Hi as [<-|[<-|[<-|[]]]]; vm_compute in Hv;
      inversion Hv; subst; discriminate. }
  exact (proj1 (nonnegative_samples_give_nonnegative_values twoRegions twoRegionsSource
                  "A" pointA Hnd Hin Hpos) _ _ Hrow eq_refl eq_refl).
Defined.

(* ================================================================== *)
(** ** The months of the monthly extraction                             *)
(* ================================================================== *)

(** X8.  For any year and month, the images the monthly query reads are
    exactly the images the daily queries read for the generated dates
    that fall in the month: nothing is read by the one and missed by the
    others. *)
Theorem month_query_reads_its_days_images (cfg : Config) (catalog : ImageCollection)
        (y m : Z) (i : Image) :
  In i (filterDate (fromYMD y m 1) (advance 1 Month (fromYMD y m 1))
          (imerg cfg catalog))
  <-> exists d, In d (dates cfg) /\
        inWindow (fromYMD y m 1) (advance 1 Month (fromYMD y m 1)) d = true /\
        In i (filterDate d (advance 1 Day d) (imerg cfg catalog)).
Proof.
  destruct (advance_month_midnight y m) as (b & Hb). rewrite Hb.
  unfold fromYMD. unfold filterDate. rewrite filter_In.
  assert (Hc : In i (imerg cfg catalog) ->
               existsb (fun d => inWindow d (advance 1 Day d) (time_start i))
                 (filter (inWindow (millisPerDay * days_from_civil y m 1)
                            (millisPerDay * b)) (dates cfg))
               = inWindow (millisPerDay * days_from_civil y m 1) (millisPerDay * b)
                   (time_start i)).
  { intros Hi. apply month_days_cover. now apply In_imerg in Hi. }
  split.
  - intros [Hi Hw]. rewrite <- (Hc Hi) in Hw. apply existsb_exists in Hw.
    destruct Hw as (d & Hd & Hwd). apply filter_In in Hd. destruct Hd as [Hd Hm].
    exists d. split; [exact Hd|]. split; [exact Hm|]. apply filter_In. now split.
  - intros (d & Hd & Hm & Hi). apply filter_In in Hi. destruct Hi as [Hi Hwd].
    split; [exact Hi|]. rewrite <- (Hc Hi). apply existsb_exists.
    exists d. split; [|exact Hwd]. apply filter_In. now split.
Qed.


Lemma chained_le (a b : Z) (l : list (Z * Z)) : chained a l b = true -> a <= b.
Proof.
  revert a. induction l as [|[s e] r IH]; simpl; intros a H.
  - apply Z.eqb_eq in H. lia.
  - rewrite !andb_true_iff, Z.eqb_eq, Z.ltb_lt in H. destruct H as [[-> Hse] Hr].
    specialize (IH e Hr). lia.
Qed.

Lemma chained_cover (a b : Z) (l : list (Z * Z)) (t : Z) :
  chained a l b = true ->
  ((exists w, In w l /\ fst w <= t < snd w) <-> a <= t < b).
Proof.
  revert a. induction l as [|[s e] r IH]; simpl; intros a H.
  - apply Z.eqb_eq in H. split; [intros (w & [] & _)|lia].
  - rewrite !andb_true_iff, Z.eqb_eq, Z.ltb_lt in H. destruct H as [[-> Hse] Hr].
    pose proof (chained_le _ _ _ Hr) as Hle. specialize (IH e Hr). split.
    + intros (w & [<-|Hw] & Ht); [simpl in Ht; lia|].
      assert (e <= t < b) by (apply IH; eauto). lia.
    + intros Ht. destruct (Z_lt_dec t e) as [Hlt|Hge].
      * exists (s, e). split; [now left|simpl; lia].
      * destruct (proj2 IH) as (w & Hw & Hin); [lia|].
        exists w. split; [now right|exact Hin].
Qed.

Lemma chained_unique (a b : Z) (l : list (Z * Z)) (t : Z) (w w' : Z * Z) :
  chained a l b = true ->
  In w l -> In w' l -> fst w <= t < snd w -> fst w' <= t < snd w' -> w = w'.
Proof.
  revert a. induction l as [|[s e] r IH]; simpl; intros a H Hw Hw' Ht Ht';
    [contradiction|].
  rewrite !andb_true_iff, Z.eqb_eq, Z.ltb_lt in H. destruct H as [[-> Hse] Hr].
  pose proof (chained_cover e b r t Hr) as Hc.
  destruct Hw as [<-|Hw], Hw' as [<-|Hw'].
  - reflexivity.
  - exfalso. assert (e <= t < b) by (apply Hc; eauto). simpl in Ht. lia.
  - exfalso. assert (e <= t < b) by (apply Hc; eauto). simpl in Ht'. lia.
  - exact (IH e Hr Hw Hw' Ht Ht').
Qed.

Lemma NoDup_map_eq {A B : Type} (f : A -> B) (l : list A) (x y : A) :
  NoDup (map f l) -> In x l -> In y l -> f x = f y -> x = y.
Proof.
  induction l as [|a l IH]; simpl; intros Hnd Hx Hy E; [contradiction|].
  inversion Hnd as [|? ? Ha Hnd']; subst.
  destruct Hx as [->|Hx], Hy as [->|Hy].
  - reflexivity.
  - exfalso. apply Ha. rewrite E. now apply in_map.
  - exfalso. apply Ha. rewrite <- E. now apply in_map.
  - now apply IH.
Qed.

(** X9.  The monthly periods tile the twenty years written in the script:
    an instant lies in the window of some generated month exactly when it
    is at or after 2006-01-01 and before 2026-01-01, and then in the
    window of one month only. *)
Theorem monthly_periods_tile_script_years (t : Z) :
  ((exists y m, In (y, m) yearMonths /\
      inWindow (fromYMD y m 1) (advance 1 Month (fromYMD y m 1)) t = true)
   <-> fromYMD 2006 1 1 <= t < fromYMD 2026 1 1) /\
  (forall y m y' m', In (y, m) yearMonths -> In (y', m') yearMonths ->
     inWindow (fromYMD y m 1) (advance 1 Month (fromYMD y m 1)) t = true ->
     inWindow (fromYMD y' m' 1) (advance 1 Month (fromYMD y' m' 1)) t = true ->
     (y, m) = (y', m')).
Proof.
  set (win := fun ym : Z * Z =>
                (fromYMD (fst ym) (snd ym) 1,
                 advance 1 Month (fromYMD (fst ym) (snd ym) 1))).
  assert (Hch : chained (fromYMD 2006 1 1) (map win yearMonths) (fromYMD 2026 1 1) = true)
    by (vm_compute; reflexivity).
  pose proof (chained_cover _ _ _ t Hch) as Hc.
  assert (Hwin : forall y m, inWindow (fromYMD y m 1) (advance 1 Month (fromYMD y m 1)) t
                             = true <-> fst (win (y, m)) <= t < snd (win (y, m))).
  { intros y m. unfold inWindow. cbn [win fst snd].
    rewrite andb_true_iff, Z.leb_le, Z.ltb_lt. reflexivity. }
  split; [split|].
  - intros (y & m & Hin & Hw). apply Hc. exists (win (y, m)). split.
    + now apply in_map.
    + now apply Hwin.
  - intros Ht. destruct (proj2 Hc Ht) as (w & Hw & Hin).
    apply in_map_iff in Hw. destruct Hw as ([y m] & <- & Hym).
    exists y, m. split; [exact Hym|]. now apply Hwin.
  - intros y m y' m' Hin Hin' Hw Hw'.
    apply Hwin in Hw, Hw'.
    assert (E : win (y, m) = win (y', m')).
    { apply (chained_unique _ _ _ t _ _ Hch); try assumption; now apply in_map. }
    apply (NoDup_map_eq (fun ym => fromYMD (fst ym) (snd ym) 1) yearMonths);
      try assumption.
    + apply StronglySorted_lt_NoDup. exact monthStarts_sorted.
    + exact (f_equal fst E).
Qed.

(* ================================================================== *)
(** ** One more day                                                     *)
(* ================================================================== *)

Lemma sequence_snoc (n : Z) : 0 <= n -> sequence 0 n = sequence 0 (n - 1) ++ [n].
Proof.
  intros Hn. unfold sequence.
  replace (Z.to_nat (n - 0 + 1)) with (S (Z.to_nat (n - 1 - 0 + 1))) by lia.
  rewrite seq_S, map_app. cbn [map]. do 2 f_equal. lia.
Qed.

(** X10.  Writing the end date one day later, all else equal, keeps every
    row of the daily dataset and appends the rows of the former end date:
    the end date itself is in the dataset only when the next day is given
    as [endDate]. *)
Theorem one_more_day_appends_its_rows (cfg cfg' : Config) (catalog : ImageCollection) :
  startDate cfg' = startDate cfg ->
  talukas cfg' = talukas cfg ->
  Date_of (endDate cfg') = advance 1 Day (Date_of (endDate cfg)) ->
  Date_of (startDate cfg) <= Date_of (endDate cfg) ->
  dates cfg' = dates cfg ++ [Date_of (endDate cfg)] /\
  rainfallData cfg' catalog
  = rainfallData cfg catalog
    ++ extractDailyRainfall cfg' catalog (Date_of (endDate cfg)).
Proof.
  intros Hs Ht He Hle.
  pose proof (interval_whole_days cfg) as HE.
  set (n := difference (Date_of (endDate cfg)) (Date_of (startDate cfg))) in *.
  assert (Hn : 0 <= n) by (unfold millisPerDay in HE; lia).
  assert (Hd' : difference (Date_of (endDate cfg')) (Date_of (startDate cfg')) = n + 1).
  { rewrite He, Hs. unfold advance, difference.
    replace (Date_of (endDate cfg) + 1 * millisPerDay - Date_of (startDate cfg))
      with ((n + 1) * millisPerDay) by (unfold millisPerDay in *; lia).
    apply Z_div_mult. reflexivity. }
  assert (Hdates : dates cfg' = dates cfg ++ [Date_of (endDate cfg)]).
  { rewrite (dates_eq cfg'), (dates_eq cfg), Hd', Hs. fold n.
    replace (n + 1 - 1) with n by lia.
    rewrite (sequence_snoc n Hn), map_app. cbn [map]. now rewrite <- HE. }
  split; [exact Hdates|].
  unfold rainfallData. rewrite Hdates, flat_map_app. cbn [flat_map].
  rewrite app_nil_r. f_equal. apply flat_map_ext_in. intros d Hd.
  assert (Hd2 : In d (dates cfg')) by (rewrite Hdates; apply in_or_app; now left).
  rewrite !extractDailyRainfall_rows, Ht. apply map_ext. intros name.
  unfold periodImage, select_precipitationCal.
  rewrite (daily_index_window cfg catalog d Hd).
  rewrite (daily_index_window cfg' catalog d Hd2). reflexivity.
Qed.

(** The script's interval against the same with end date 2026-01-01. *)
Lemma one_more_day_appends_its_rows_witness :
  dates referencePlusOne = dates reference ++ [Date_of (ymd 2025 12 31)] /\
  rainfallData referencePlusOne gapSource
  = rainfallData reference gapSource
    ++ extractDailyRainfall referencePlusOne gapSource (Date_of (ymd 2025 12 31)).
Proof.
  apply (one_more_day_appends_its_rows reference referencePlusOne gapSource).
  - reflexivity.
  - reflexivity.
  - vm_compute. reflexivity.
  - vm_compute. discriminate.
Defined.

(* ================================================================== *)
(** ** The map                                                          *)
(* ================================================================== *)

Lemma forEach_layers (cfg : Config) (l : list string) (acc : list Effect) :
  fold_left
    (fun layers talukaName =>
       match get (talukas cfg) talukaName with
       | Some point => layers ++ [Map_addLayer point "red" talukaName]
       | None => layers
       end) l acc
  = acc ++ flat_map (fun k => match get (talukas cfg) k with
                              | Some point => [Map_addLayer point "red" k]
                              | None => []
                              end) l.
Proof.
  revert acc. induction l as [|k l IH]; intros acc; simpl.
  - now rewrite app_nil_r.
  - rewrite IH. destruct (get (talukas cfg) k); [|reflexivity].
    now rewrite <- app_assoc.
Qed.

Lemma talukaLayers_entries (cfg : Config) :
  NoDup (Object_keys (talukas cfg)) ->
  talukaLayers cfg
  = map (fun kv => Map_addLayer (snd kv) "red" (fst kv)) (talukas cfg).
Proof.
  intros Hnd. unfold talukaLayers. rewrite forEach_layers. cbn [app].
  unfold Object_keys.
  assert (H : forall l, (forall kv, In kv l -> In kv (talukas cfg)) ->
            flat_map (fun k => match get (talukas cfg) k with
                               | Some point => [Map_addLayer point "red" k]
                               | None => []
                               end) (map fst l)
            = map (fun kv => Map_addLayer (snd kv) "red" (fst kv)) l).
  { induction l as [|[k v] l IH]; intros Hl; cbn [map flat_map fst snd];
      [reflexivity|].
    rewrite (get_entry _ k v Hnd (Hl _ (or_introl eq_refl))).
    rewrite IH; [reflexivity|]. intros kv Hkv. apply Hl. now right. }
  apply H. auto.
Qed.

(** X11.  The map receives, in this order, the centring on the basin, the
    basin as a blue layer, and then one red layer per taluka of the
    catalog, in catalog order, each at the taluka's own point and named
    after it; nothing else is put on the map. *)
Theorem map_shows_basin_then_talukas (cfg : Config) (catalog : ImageCollection) :
  NoDup (Object_keys (talukas cfg)) ->
  filter isMapEffect (effects cfg catalog)
  = Map_centerObject (basin cfg) 9
    :: Map_addLayer (basin cfg) "blue" "Panchganga Basin"
    :: map (fun kv => Map_addLayer (snd kv) "red" (fst kv)) (talukas cfg).
Proof.
  intros Hnd. unfold effects. rewrite !filter_app, (talukaLayers_entries cfg Hnd).
  cbn [filter isMapEffect size limit app].
  do 2 f_equal. clear Hnd.
  induction (talukas cfg) as [|kv l IH]; cbn [map filter isMapEffect];
    [reflexivity|now rewrite IH].
Qed.

(** The twelve talukas of the script. *)
Lemma map_shows_basin_then_talukas_witness :
  length (filter isMapEffect (effects reference gapSource)) = 14%nat.
Proof.
  assert (Hnd : NoDup (Object_keys (talukas reference))) by distinct_keys.
  rewrite (map_shows_basin_then_talukas reference gapSource Hnd). reflexivity.
Defined.

(* ================================================================== *)
(** ** The catalog                                                      *)
(* ================================================================== *)

Lemma get_app_old {A : Type} (o o' : Object A) (k : string) :
  In k (Object_keys o) -> get (o ++ o') k = get o k.
Proof.
  induction o as [|[k' v] o IH]; simpl; intros Hin; [contradiction|].
  destruct (String.eqb_spec k' k) as [_|Hne]; [reflexivity|].
  destruct Hin as [E|Hin]; [contradiction|now apply IH].
Qed.

Lemma get_app_new {A : Type} (o o' : Object A) (k : string) :
  ~ In k (Object_keys o) -> get (o ++ o') k = get o' k.
Proof.
  induction o as [|[k' v] o IH]; simpl; intros Hin; [reflexivity|].
  destruct (String.eqb_spec k' k) as [E|_]; [exfalso; apply Hin; now left|].
  apply IH. intros H. apply Hin. now right.
Qed.

(** X12.  Adding a taluka with a new name at the end of the catalog leaves
    the rows of every period as they were and appends one row for the new
    taluka, read at its point, to each period's rows. *)
Theorem new_taluka_appends_a_row (cfg cfg' : Config) (catalog : ImageCollection)
        (n : string) (p : Geometry) :
  startDate cfg' = startDate cfg ->
  endDate cfg' = endDate cfg ->
  talukas cfg' = talukas cfg ++ [(n, p)] ->
  ~ In n (Object_keys (talukas cfg)) ->
  (forall d,
      extractDailyRainfall cfg' catalog d
      = extractDailyRainfall cfg catalog d
        ++ [mkDaily d n (valueAt (periodImage cfg catalog d (advance 1 Day d)) (Some p))]) /\
  (forall y m,
      extractMonthlyRainfall cfg' catalog (y, m)
      = extractMonthlyRainfall cfg catalog (y, m)
        ++ [mkMonthly y m n
              (valueAt (periodImage cfg catalog (fromYMD y m 1)
                          (advance 1 Month (fromYMD y m 1))) (Some p))]).
Proof.
  intros Hs He Ht Hnew.
  assert (Himg : forall s e, periodImage cfg' catalog s e = periodImage cfg catalog s e).
  { intros s e. unfold periodImage, imerg. now rewrite Hs, He. }
  assert (Hnew' : get (talukas cfg ++ [(n, p)]) n = Some p).
  { rewrite (get_app_new _ _ _ Hnew). simpl. now rewrite String.eqb_refl. }
  split.
  - intros d. rewrite !extractDailyRainfall_rows, Ht, Himg.
    unfold Object_keys. rewrite map_app, map_app. cbn [map fst]. rewrite Hnew'.
    f_equal. apply map_ext_in. intros k Hk. now rewrite (get_app_old _ _ _ Hk).
  - intros y m. rewrite !extractMonthlyRainfall_rows, Ht, Himg.
    unfold Object_keys. rewrite map_app, map_app. cbn [map fst]. rewrite Hnew'.
    f_equal. apply map_ext_in. intros k Hk. now rewrite (get_app_old _ _ _ Hk).
Qed.

(** Region C added to the two-region scenario. *)
Lemma new_taluka_appends_a_row_witness :
  extractDailyRainfall threeRegions twoRegionsSource (fromYMD 2020 1 1)
  = extractDailyRainfall twoRegions twoRegionsSource (fromYMD 2020 1 1)
    ++ [mkDaily (fromYMD 2020 1 1) "C" Null].
Proof.
  assert (Hnew : ~ In "C"%string (Object_keys (talukas twoRegions)))
    by (simpl; intuition discriminate).
  exact (proj1 (new_taluka_appends_a_row twoRegions threeRegions twoRegionsSource
                  "C" pointC eq_refl eq_refl eq_refl Hnew) (fromYMD 2020 1 1)).
Defined.

Lemma NoDup_list_prod {A B : Type} (l : list A) (l' : list B) :
  NoDup l -> NoDup l' -> NoDup (list_prod l l').
Proof.
  intros Hl Hl'. induction Hl as [|a l Ha Hl IH]; simpl; [constructor|].
  apply NoDup_app.
  - clear IH. induction Hl' as [|b l' Hb Hl' IH']; cbn [map]; constructor;
      [|exact IH'].
    intros Hin. apply in_map_iff in Hin. destruct Hin as (b' & E & Hb').
    inversion E; subst. contradiction.
  - exact IH.
  - intros [x y] Hin Hin'. apply in_map_iff in Hin. destruct Hin as (b & E & _).
    inversion E; subst. apply in_prod_iff in Hin'. destruct Hin' as [Hin' _].
    contradiction.
Qed.


(** X13.  No (date, taluka) pair occurs twice in the daily dataset. *)
Theorem date_and_taluka_identify_a_daily_row (cfg : Config)
        (catalog : ImageCollection) :
  NoDup (Object_keys (talukas cfg)) ->
  NoDup (map (fun r => (date r, taluka r)) (rainfallData cfg catalog)).
Proof.
  intros Hnd. rewrite rainfallData_pairs. apply NoDup_list_prod; [|exact Hnd].
  apply StronglySorted_lt_NoDup. apply dates_sorted.
Qed.

(** The twelve talukas of the script. *)
Lemma date_and_taluka_identify_a_daily_row_witness :
  NoDup (Object_keys (talukas reference)) /\
  NoDup (map (fun r => (date r, taluka r)) (rainfallData reference gapSource)).
Proof.
  assert (Hnd : NoDup (Object_keys (talukas reference))) by distinct_keys.
  split; [exact Hnd|].
  exact (date_and_taluka_identify_a_daily_row reference gapSource Hnd).
Defined.
